(** * Shopify custom-variant server: model and properties

    The repository holds three revisions of [server.js]:

    - [Part001]  (src/unnamed/part_001): the image travels as a product
      attachment, the upstream helper checks [res.ok], the webhook collects
      product ids in a [Set];
    - [Part002a] (src/unnamed/part_002, lines 1-259): the image is first
      uploaded to [files.json], otherwise as [Part001];
    - [Part002b] (src/unnamed/part_002, lines 260-432): no [res.ok] check, no
      [try] around the signature comparison, product ids pushed on an array.

    Each revision is embedded as functions in a small state-and-exception
    monad.  The state is the list of requests sent upstream so far together
    with the number of clock readings taken; the upstream store, the clock and
    the built-ins [JSON.parse], [JSON.stringify] and [crypto.createHmac] are
    fields of an environment record, so every statement holds for all of
    them.  [console.*] calls have no effect on results and are left out.

    Every revision installs [app.use(express.json(...))] ahead of its routes
    (part_001 line 8, part_002 lines 15 and 268), so each handler, the
    webhook's included, is modelled from the point where [express.json] has
    put the parsed body in [req.body]: the [express.raw] on the webhook route
    finds the body already read and leaves [req.body] as it is. *)

From Stdlib Require Import ZArith List String Ascii Bool Lia.
From Stdlib Require Import Decimal DecimalString DecimalZ.
Import ListNotations.
Open Scope string_scope.
Set Warnings "-register-all".

(* ================================================================== *)
(** ** The JavaScript fragment the server relies on *)

Module JS.

(** Values.  [JSON.parse] yields every constructor but [Undefined]; numbers
    are the integers (identifiers, timestamps, status codes), rendered in
    decimal as JavaScript does below 1e21.  Strings are byte strings holding
    UTF-8. *)
Inductive value : Type :=
| Undefined
| Null
| Bool (b : bool)
| Num (z : Z)
| Str (s : string)
| Arr (elems : list value)
| Obj (fields : list (string * value)).

(** Thrown values: an error object with its [name] and [message]. *)
Record exn : Type := MkExn { name : string; message : string }.

Definition Error (m : string) : exn := MkExn "Error" m.
Definition TypeError (m : string) : exn := MkExn "TypeError" m.
Definition RangeError (m : string) : exn := MkExn "RangeError" m.
Definition SyntaxError (m : string) : exn := MkExn "SyntaxError" m.

(** [String(err)] for an error object. *)
Definition String_of_exn (e : exn) : string :=
  if (message e =? "")%string then name e else name e ++ ": " ++ message e.

(** [err.message || String(err)] *)
Definition message_or_String (e : exn) : string :=
  if (message e =? "")%string then String_of_exn e else message e.

Inductive outcome (A : Type) : Type :=
| Ok (a : A)
| Throw (e : exn).
Arguments Ok {A} a.
Arguments Throw {A} e.

(** ToBoolean *)
Definition truthy (v : value) : bool :=
  match v with
  | Undefined | Null => false
  | Bool b => b
  | Num z => negb (z =? 0)%Z
  | Str s => negb (s =? "")%string
  | Arr _ | Obj _ => true
  end.

(** [a || b] on values *)
Definition or_else (a b : value) : value := if truthy a then a else b.

Fixpoint lookup (k : string) (fs : list (string * value)) : value :=
  match fs with
  | [] => Undefined
  | (k', v) :: fs' => if (k =? k')%string then v else lookup k fs'
  end.

(** [v.k] for the property names the server reads ([line_items], [sku],
    [variant_id], [variant], [product_id], [product], [variants], [images],
    [id], [src], [attachment], [file], [url], [products], [title],
    [imageBase64], [price]): reading from [null] or [undefined] throws; none
    of these names exists on a number, boolean, string or array. *)
Definition get (v : value) (k : string) : outcome value :=
  match v with
  | Undefined => Throw (TypeError ("Cannot read properties of undefined (reading '" ++ k ++ "')"))
  | Null => Throw (TypeError ("Cannot read properties of null (reading '" ++ k ++ "')"))
  | Obj fs => Ok (lookup k fs)
  | Bool _ | Num _ | Str _ | Arr _ => Ok Undefined
  end.

Definition string_of_nat (n : nat) : string := NilZero.string_of_uint (Nat.to_uint n).
Definition string_of_Z (z : Z) : string := NilZero.string_of_int (Z.to_int z).

Fixpoint char_at (i : nat) (s : string) : value :=
  match s, i with
  | EmptyString, _ => Undefined
  | String c _, O => Str (String c EmptyString)
  | String _ s', S i' => char_at i' s'
  end.

(** [v[i]] for a literal index [i]. *)
Definition get_index (v : value) (i : nat) : outcome value :=
  match v with
  | Undefined => Throw (TypeError ("Cannot read properties of undefined (reading '" ++ string_of_nat i ++ "')"))
  | Null => Throw (TypeError ("Cannot read properties of null (reading '" ++ string_of_nat i ++ "')"))
  | Arr l => Ok (nth i l Undefined)
  | Str s => Ok (char_at i s)
  | Obj fs => Ok (lookup (string_of_nat i) fs)
  | Bool _ | Num _ => Ok Undefined
  end.

(** ToString, as applied by template literals and [String(...)]. *)
Fixpoint to_str (v : value) : string :=
  match v with
  | Undefined => "undefined"
  | Null => "null"
  | Bool true => "true"
  | Bool false => "false"
  | Num z => string_of_Z z
  | Str s => s
  | Arr l =>
      (fix join (l : list value) : string :=
         match l with
         | [] => ""
         | x :: r =>
             let sx := match x with Undefined | Null => "" | _ => to_str x end in
             match r with
             | [] => sx
             | _ :: _ => sx ++ "," ++ join r
             end
         end) l
  | Obj _ => "[object Object]"
  end.

(** The items a [for ... of] loop visits.  A string is visited character by
    character; a number, boolean or plain object is not iterable. *)
Definition chars (s : string) : list value :=
  map (fun c => Str (String c EmptyString)) (list_ascii_of_string s).

Definition iterate (v : value) : outcome (list value) :=
  match v with
  | Arr l => Ok l
  | Str s => Ok (chars s)
  | Undefined | Null | Bool _ | Num _ | Obj _ =>
      Throw (TypeError (to_str v ++ " is not iterable"))
  end.

(** [Some rest] when [s = p ++ rest]. *)
Fixpoint strip_prefix (p s : string) : option string :=
  match p, s with
  | EmptyString, _ => Some s
  | String a p', String b s' => if Ascii.eqb a b then strip_prefix p' s' else None
  | String _ _, EmptyString => None
  end.

Definition starts_with (s p : string) : bool :=
  match strip_prefix p s with Some _ => true | None => false end.

(** [v.startsWith(p)]: only strings have the method. *)
Definition startsWith (v : value) (p : string) : outcome bool :=
  match v with
  | Str s => Ok (starts_with s p)
  | _ => Throw (TypeError "sku.startsWith is not a function")
  end.

(** SameValueZero, the equality of [Set].  Two arrays or objects are the same
    only when they are the same reference, which two results of separate
    [JSON.parse] calls never are. *)
Definition same_value_zero (a b : value) : bool :=
  match a, b with
  | Undefined, Undefined => true
  | Null, Null => true
  | Bool x, Bool y => Bool.eqb x y
  | Num x, Num y => (x =? y)%Z
  | Str x, Str y => (x =? y)%string
  | _, _ => false
  end.

(** [set.add(x)] on a [Set] kept in insertion order, as [Array.from] reads
    it back. *)
Definition Set_add (x : value) (s : list value) : list value :=
  if existsb (same_value_zero x) s then s else s ++ [x].

(** [array.push(x)] *)
Definition push (x : value) (a : list value) : list value := a ++ [x].

(** [crypto.timingSafeEqual(Buffer.from(a), Buffer.from(b))]: throws when the
    byte lengths differ. *)
Definition timingSafeEqual (a b : string) : outcome bool :=
  if Nat.eqb (String.length a) (String.length b)
  then Ok (a =? b)%string
  else Throw (RangeError "Input buffers must have the same byte length").

(** [s.replace(/^data:image\/[a-zA-Z]+;base64,/, '')] *)
Definition is_letter (c : ascii) : bool :=
  let n := nat_of_ascii c in
  ((65 <=? n) && (n <=? 90) || (97 <=? n) && (n <=? 122))%nat.

Fixpoint skip_letters (s : string) : nat * string :=
  match s with
  | String c s' =>
      if is_letter c
      then let (n, r) := skip_letters s' in (S n, r)
      else (O, s)
  | EmptyString => (O, s)
  end.

Definition strip_data_uri (s : string) : string :=
  match strip_prefix "data:image/" s with
  | None => s
  | Some r =>
      match skip_letters r with
      | (O, _) => s
      | (S _, r') =>
          match strip_prefix ";base64," r' with
          | None => s
          | Some rest => rest
          end
      end
  end.

End JS.
Import JS.

(* ================================================================== *)
(** ** Effects: upstream requests, the clock, exceptions *)

(** One request handed to [fetch]: [body] is the value serialised with
    [JSON.stringify] ([None] when [opts.body] is not set). *)
Record call : Type := MkCall {
  url : string;
  method : string;
  headers : list (string * string);
  body : option value
}.

Inductive fetch_result : Type :=
| Rejected (e : exn)
| Response (status : Z) (statusText : string) (text : string).

(** Everything outside the program.  [upstream] answers a request given the
    requests that came before it; [Date_now n] is the [n]-th reading of the
    clock. *)
Record env : Type := MkEnv {
  process_env : string -> option string;
  upstream : list call -> call -> fetch_result;
  Date_now : nat -> Z;
  JSON_parse : string -> option value;
  JSON_stringify : value -> string;
  hmac_sha256_base64 : string -> string -> string
}.

Record world : Type := MkWorld { calls : list call; ticks : nat }.

Definition M (A : Type) : Type := world -> outcome A * world.

Definition ret {A} (a : A) : M A := fun w => (Ok a, w).

Definition bind {A B} (m : M A) (k : A -> M B) : M B :=
  fun w =>
    match m w with
    | (Ok a, w') => k a w'
    | (Throw e, w') => (Throw e, w')
    end.

Definition throw {A} (e : exn) : M A := fun w => (Throw e, w).

Definition lift {A} (o : outcome A) : M A := fun w => (o, w).

(** [try { m } catch (e) { h e }] *)
Definition try_catch {A} (m : M A) (h : exn -> M A) : M A :=
  fun w =>
    match m w with
    | (Ok a, w') => (Ok a, w')
    | (Throw e, w') => h e w'
    end.

Declare Scope js_scope.
Delimit Scope js_scope with js.
Notation "x <- m ;; k" := (bind m (fun x => k))
  (at level 61, m at next level, right associativity) : js_scope.
Notation "m ;;; k" := (bind m (fun _ => k))
  (at level 61, right associativity) : js_scope.
Open Scope js_scope.

(** [await fetch(url, opts)] followed by [await res.text()]. *)
Definition fetch (E : env) (c : call) : M (Z * string * string) :=
  fun w =>
    let w' := MkWorld (calls w ++ [c]) (ticks w) in
    match upstream E (calls w) c with
    | Rejected e => (Throw e, w')
    | Response st stt txt => (Ok (st, stt, txt), w')
    end.

(** [Date.now()] *)
Definition now (E : env) : M Z :=
  fun w => (Ok (Date_now E (ticks w)), MkWorld (calls w) (S (ticks w))).

(** [res.ok] *)
Definition res_ok (status : Z) : bool := ((200 <=? status) && (status <=? 299))%Z.

(** [for (const x of items) { s = body x s }] *)
Fixpoint for_of {S : Type} (items : list value) (body : value -> S -> M S) (s : S) : M S :=
  match items with
  | [] => ret s
  | x :: rest => s' <- body x s ;; for_of rest body s'
  end.

(** [process.env.K || d] *)
Definition env_or (E : env) (k d : string) : string :=
  match process_env E k with
  | Some s => if (s =? "")%string then d else s
  | None => d
  end.

(** A value of [process.env] inside a template literal. *)
Definition env_str (E : env) (k : string) : string :=
  match process_env E k with
  | Some s => s
  | None => "undefined"
  end.

(** What a handler hands to [res]: [res.status(n).json(v)] or
    [res.status(n).send(s)]; [res.json(v)] alone answers 200.  A handler
    whose promise rejects sends nothing: its run ends in [Throw]. *)
Inductive reply : Type :=
| Json (status : Z) (payload : value)
| Send (status : Z) (text : string).

Definition status_of (r : reply) : Z :=
  match r with Json s _ => s | Send s _ => s end.

(** An incoming request: [req.get(name)] and [req.body]. *)
Record request (B : Type) : Type := MkReq {
  req_get : string -> option string;
  req_body : B
}.
Arguments MkReq {B} _ _.
Arguments req_get {B} _ _.
Arguments req_body {B} _.

Definition w0 : world := MkWorld [] 0.

(* ================================================================== *)
(** ** What the webhook handler finds in [req.body]

    [express.json] runs for every request before the route is reached.  For
    a request with a JSON body it stores the parsed value, an object or an
    array, in [req.body] and marks the body as read; for any other request it
    leaves [req.body] without content (the empty object in Express 4,
    [undefined] in Express 5).  The route's [express.raw], which accepts
    JSON requests only, then has nothing to read.  The handler therefore
    never sees the request bytes: both [update(req.body)] and
    [req.body.toString('utf8')] are applied to a parsed value. *)

(** ToString of a parsed value, as [Array.prototype.join] applies it to the
    elements of an array: an object converts through [Object.prototype.toString]
    unless the JSON text gave it a [toString] property of its own, which is
    never callable. *)
Fixpoint ToString (v : value) : outcome string :=
  match v with
  | Undefined => Ok "undefined"
  | Null => Ok "null"
  | Bool true => Ok "true"
  | Bool false => Ok "false"
  | Num z => Ok (string_of_Z z)
  | Str s => Ok s
  | Arr l =>
      (fix join (l : list value) : outcome string :=
         match l with
         | [] => Ok ""
         | x :: r =>
             match (match x with Undefined | Null => Ok "" | _ => ToString x end) with
             | Throw e => Throw e
             | Ok sx =>
                 match r with
                 | [] => Ok sx
                 | _ :: _ =>
                     match join r with
                     | Throw e => Throw e
                     | Ok sr => Ok (sx ++ "," ++ sr)
                     end
                 end
             end
         end) l
  | Obj fs =>
      match lookup "toString" fs with
      | Undefined => Ok "[object Object]"
      | _ => Throw (TypeError "Cannot convert object to primitive value")
      end
  end.

(** [req.body.toString('utf8')].  On an object it is
    [Object.prototype.toString], which ignores its argument; on an array,
    [Array.prototype.toString], which joins the elements with commas. *)
Definition body_toString (body : value) : outcome string :=
  match body with
  | Undefined => Throw (TypeError "Cannot read properties of undefined (reading 'toString')")
  | Null => Throw (TypeError "Cannot read properties of null (reading 'toString')")
  | Bool _ | Str _ | Arr _ => ToString body
  | Num _ => Throw (RangeError "toString() radix must be between 2 and 36")
  | Obj fs =>
      match lookup "toString" fs with
      | Undefined => Ok "[object Object]"
      | _ => Throw (TypeError "req.body.toString is not a function")
      end
  end.

(** [hmac.update(data)] accepts a string, a [Buffer], a [TypedArray] or a
    [DataView]; of the values [JSON.parse] yields only a string is one. *)
Definition hmac_update (data : value) : outcome string :=
  match data with
  | Str s => Ok s
  | _ => Throw (TypeError "The data argument must be of type string or an instance of Buffer, TypedArray, or DataView")
  end.

(* ================================================================== *)
(** ** Code the three revisions share

    The body of the order webhook after the signature check, the product
    deletion helper and the admin sweep read the same in the three files, up
    to the upstream helper they call, the container that collects product
    ids ([Set] or array) and the text put in a 500 reply. *)

Section Routes.

Context (E : env).
Context (shopifyRequest : string -> string -> value -> M value).
Context (collect : value -> list value -> list value).
Context (err_text : exn -> string).

Definition TEMP_SKU_PREFIX : string := env_or E "TEMP_SKU_PREFIX" "CUST-".
Definition ADMIN_KEY : string := env_or E "ADMIN_KEY" "".

(** [a && k], where [k] is evaluated only when [a] is truthy. *)
Definition and_then (a : value) (k : M value) : M value :=
  if truthy a then k else ret a.

(** [JSON.parse(text)] *)
Definition parse (text : string) : M value :=
  match JSON_parse E text with
  | Some v => ret v
  | None => throw (SyntaxError "Unexpected token in JSON")
  end.

Definition deleteProduct (productId : value) : M unit :=
  shopifyRequest ("products/" ++ to_str productId ++ ".json") "DELETE" Null ;;;
  ret tt.

(** [sku && sku.startsWith(TEMP_SKU_PREFIX)] as a condition. *)
Definition is_temp_sku (sku : value) : outcome bool :=
  if truthy sku then startsWith sku TEMP_SKU_PREFIX else Ok false.

(** Body of the loop over [lineItems]. *)
Definition scan_line_item (li : value) (toCleanup : list value) : M (list value) :=
  sku0 <- lift (get li "sku") ;;
  let sku := or_else sku0 (Str "") in
  hit <- lift (is_temp_sku sku) ;;
  if hit : bool then
    variantId <- lift (get li "variant_id") ;;
    if truthy variantId then
      try_catch
        (vdata <- shopifyRequest ("variants/" ++ to_str variantId ++ ".json") "GET" Null ;;
         if truthy vdata then
           variant <- lift (get vdata "variant") ;;
           if truthy variant then
             product_id <- lift (get variant "product_id") ;;
             if truthy product_id
             then ret (collect product_id toCleanup)
             else ret toCleanup
           else ret toCleanup
         else ret toCleanup)
        (fun _ => ret toCleanup)
    else ret toCleanup
  else ret toCleanup.

(** Body of the loop over the collected product ids. *)
Definition delete_one (pid : value) (_ : unit) : M unit :=
  try_catch (deleteProduct pid) (fun _ => ret tt).

(** The [try] block of the webhook handler. *)
Definition process_order (body : value) : M reply :=
  try_catch
    (text <- lift (body_toString body) ;;
     bodyJson <- parse text ;;
     li <- lift (get bodyJson "line_items") ;;
     let lineItems := or_else li (Arr []) in
     items <- lift (iterate lineItems) ;;
     toCleanup <- for_of items scan_line_item [] ;;
     for_of toCleanup delete_one tt ;;;
     ret (Send 200 "OK"))
    (fun _ => ret (Send 500 "Error")).

(** [variants.some(v => v.sku && v.sku.startsWith(TEMP_SKU_PREFIX))] *)
Fixpoint some_temp_sku (variants : list value) : outcome bool :=
  match variants with
  | [] => Ok false
  | v :: rest =>
      match get v "sku" with
      | Throw e => Throw e
      | Ok sku =>
          match is_temp_sku sku with
          | Throw e => Throw e
          | Ok true => Ok true
          | Ok false => some_temp_sku rest
          end
      end
  end.

(** [p.variants && p.variants.some(...)] as a condition. *)
Definition shouldDelete (p : value) : outcome bool :=
  match get p "variants" with
  | Throw e => Throw e
  | Ok variants =>
      if truthy variants then
        match variants with
        | Arr l => some_temp_sku l
        | _ => Throw (TypeError "p.variants.some is not a function")
        end
      else Ok false
  end.

Definition sweep_one (p : value) (deleted : list value) : M (list value) :=
  sd <- lift (shouldDelete p) ;;
  if sd : bool then
    try_catch
      (id <- lift (get p "id") ;;
       deleteProduct id ;;;
       ret (push id deleted))
      (fun _ => ret deleted)
  else ret deleted.

Definition unauthorized : reply :=
  Json 401 (Obj [("success", Bool false); ("message", Str "Unauthorized")]).

(** [ADMIN_KEY && req.get('x-admin-key') !== ADMIN_KEY] *)
Definition admin_denied (req : request value) : bool :=
  negb (ADMIN_KEY =? "")%string &&
  match req_get req "x-admin-key" with
  | Some k => negb (k =? ADMIN_KEY)%string
  | None => true
  end.

(** What the admin route does once the key check has let the request in. *)
Definition sweep : M reply :=
  listRes <- shopifyRequest "products.json?limit=250&published_status=unpublished" "GET" Null ;;
  ps <- lift (get listRes "products") ;;
  let products := or_else ps (Arr []) in
  items <- lift (iterate products) ;;
  deleted <- for_of items sweep_one [] ;;
  ret (Json 200 (Obj [("success", Bool true);
                      ("deletedCount", Num (Z.of_nat (List.length deleted)));
                      ("deleted", Arr deleted)])).

Definition server_error (err : exn) : reply :=
  Json 500 (Obj [("success", Bool false); ("message", Str (err_text err))]).

(** The admin route's handler. *)
Definition cleanup_temp_products (req : request value) : M reply :=
  try_catch
    (if admin_denied req then ret unauthorized else sweep)
    (fun err => ret (server_error err)).

End Routes.

(** The pieces every revision's upstream helper starts from. *)
Section Upstream.

Context (E : env).

Definition API_VERSION : string := env_or E "SHOPIFY_API_VERSION" "2024-07".

(** The server exits at start-up unless both are set. *)
Definition started : bool :=
  match process_env E "SHOPIFY_STORE", process_env E "SHOPIFY_ADMIN_API_TOKEN" with
  | Some shop, Some token => negb (shop =? "")%string && negb (token =? "")%string
  | _, _ => false
  end.

Definition request_url (path : string) : string :=
  "https://" ++ env_str E "SHOPIFY_STORE" ++ "/admin/api/" ++ API_VERSION ++ "/" ++ path.

(** [url], [opts] as [shopifyRequest] builds them. *)
Definition request_opts (path method : string) (body : value) : call :=
  MkCall (request_url path) method
         [("X-Shopify-Access-Token", env_str E "SHOPIFY_ADMIN_API_TOKEN");
          ("Content-Type", "application/json")]
         (if truthy body then Some body else None).

(** A destructuring default: it applies to [undefined] only. *)
Definition default_to (v d : value) : value :=
  match v with Undefined => d | _ => v end.

(** [req.get('X-Shopify-Hmac-Sha256') || ''] *)
Definition hmac_header (req : request value) : string :=
  match req_get req "X-Shopify-Hmac-Sha256" with
  | Some h => h
  | None => ""
  end.

Definition SHOPIFY_WEBHOOK_SECRET : string := env_or E "SHOPIFY_WEBHOOK_SECRET" "".

(** [crypto.createHmac('sha256', secret).update(req.body).digest('base64')] *)
Definition signature (req : request value) : outcome string :=
  match hmac_update (req_body req) with
  | Ok data => Ok (hmac_sha256_base64 E SHOPIFY_WEBHOOK_SECRET data)
  | Throw e => Throw e
  end.

End Upstream.

(* ================================================================== *)
(** ** src/unnamed/part_001 *)

Module Part001.
Section Server.

Context (E : env).

Definition shopifyRequest (path method : string) (body : value) : M value :=
  res <- fetch E (request_opts E path method body) ;;
  let '(status, _, text) := res in
  if negb (res_ok status)
  then throw (Error ("Shopify API error (" ++ to_str (Num status) ++ "): " ++ text))
  else
    match JSON_parse E text with
    | Some v => ret v
    | None => throw (Error ("Shopify parse error: " ++ text))
    end.

Definition product_payload (title imageBase64 price : value) (stamp : Z) : value :=
  Obj [("product", Obj [
    ("title", title);
    ("vendor", Str "Next Print");
    ("product_type", Str "Custom Jersey");
    ("published", Bool false);
    ("images", Arr [Obj [("attachment", imageBase64)]]);
    ("variants", Arr [Obj [
       ("option1", Str "Default");
       ("price", Str (to_str (or_else price (Str "499.00"))));
       ("sku", Str (TEMP_SKU_PREFIX E ++ to_str (Num stamp)))]])])].

Definition createHiddenProductWithImage (title imageBase64 price : value) : M value :=
  let title := default_to title (Str "Custom Jersey") in
  let price := default_to price (Str "499.00") in
  stamp <- now E ;;
  data <- shopifyRequest "products.json" "POST" (product_payload title imageBase64 price stamp) ;;
  if negb (truthy data)
  then throw (Error ("Failed to create product: " ++ JSON_stringify E data))
  else
    product <- lift (get data "product") ;;
    if negb (truthy product)
    then throw (Error ("Failed to create product: " ++ JSON_stringify E data))
    else ret product.

(** [imageBase64.replace(/^data:image\/[a-zA-Z]+;base64,/, '')] *)
Definition replace_data_uri (imageBase64 : value) : outcome value :=
  match imageBase64 with
  | Str s => Ok (Str (strip_data_uri s))
  | _ => Throw (TypeError "imageBase64.replace is not a function")
  end.

Definition bad_request : reply :=
  Json 400 (Obj [("success", Bool false); ("message", Str "imageBase64 required")]).

(** [app.post('/api/create-custom-product', ...)] *)
Definition post_create_custom_product (req : request value) : M reply :=
  try_catch
    (title0 <- lift (get (req_body req) "title") ;;
     let title := default_to title0 (Str "Custom Jersey") in
     imageBase64 <- lift (get (req_body req) "imageBase64") ;;
     price <- lift (get (req_body req) "price") ;;
     if negb (truthy imageBase64) then ret bad_request
     else
       rawBase64 <- lift (replace_data_uri imageBase64) ;;
       product <- createHiddenProductWithImage title rawBase64 price ;;
       variants <- lift (get product "variants") ;;
       v0 <- and_then variants (lift (get_index variants 0)) ;;
       let variant := or_else v0 Null in
       variantId <- and_then variant (lift (get variant "id")) ;;
       sku <- and_then variant (lift (get variant "sku")) ;;
       images <- lift (get product "images") ;;
       i0 <- and_then images (lift (get_index images 0)) ;;
       i1 <- and_then i0
               (src <- lift (get i0 "src") ;;
                if truthy src then ret src else lift (get i0 "attachment")) ;;
       let imageSrc := or_else i1 Null in
       productId <- lift (get product "id") ;;
       ret (Json 200 (Obj [("success", Bool true);
                           ("productId", productId);
                           ("variantId", variantId);
                           ("sku", sku);
                           ("image", imageSrc);
                           ("product", product)])))
    (fun err => ret (server_error message_or_String err)).

(** [app.post('/webhooks/orders/create', ...)] *)
Definition post_orders_create (req : request value) : M reply :=
  let hmac := hmac_header req in
  let secret := SHOPIFY_WEBHOOK_SECRET E in
  if negb (secret =? "")%string then
    verdict <-
      try_catch
        (gen <- lift (signature E req) ;;
         same <- lift (timingSafeEqual gen hmac) ;;
         if negb same then ret (Some (Send 401 "HMAC mismatch")) else ret None)
        (fun _ => ret (Some (Send 401 "HMAC error"))) ;;
    match verdict with
    | Some r => ret r
    | None => process_order E shopifyRequest Set_add (req_body req)
    end
  else process_order E shopifyRequest Set_add (req_body req).

(** [app.post('/admin/cleanup-temp-products', ...)] *)
Definition post_cleanup_temp_products (req : request value) : M reply :=
  cleanup_temp_products E shopifyRequest message_or_String req.

End Server.
End Part001.

(* ================================================================== *)
(** ** src/unnamed/part_002, lines 1-259 *)

Module Part002a.
Section Server.

Context (E : env).

Definition shopifyRequest (path method : string) (body : value) : M value :=
  res <- fetch E (request_opts E path method body) ;;
  let '(status, statusText, raw) := res in
  if negb (res_ok status)
  then throw (Error ("Shopify API error (" ++ to_str (Num status) ++ " " ++ statusText ++ "): " ++ raw))
  else
    match JSON_parse E raw with
    | Some v => ret v
    | None => throw (Error ("Shopify JSON parse error: " ++ raw))
    end.

Definition upload_failed (data : value) : exn :=
  Error ("Shopify file upload failed: " ++ JSON_stringify E data).

Definition uploadFileToShopify (base64 filename : value) : M value :=
  let body := Obj [("file", Obj [("attachment", base64); ("filename", filename)])] in
  data <- shopifyRequest "files.json" "POST" body ;;
  if negb (truthy data) then throw (upload_failed data)
  else
    file <- lift (get data "file") ;;
    if negb (truthy file) then throw (upload_failed data)
    else
      file_url <- lift (get file "url") ;;
      if negb (truthy file_url) then throw (upload_failed data)
      else ret file_url.

Definition product_payload (title fileUrl price : value) (stamp : Z) : value :=
  Obj [("product", Obj [
    ("title", title);
    ("vendor", Str "Next Print");
    ("product_type", Str "Custom Jersey");
    ("published", Bool false);
    ("images", Arr [Obj [("src", fileUrl)]]);
    ("variants", Arr [Obj [
       ("option1", Str "Default");
       ("price", Str (to_str (or_else price (Str "499.00"))));
       ("sku", Str (TEMP_SKU_PREFIX E ++ to_str (Num stamp)))]])])].

Definition createHiddenProductWithImage (title fileUrl price : value) : M value :=
  let title := default_to title (Str "Custom Jersey") in
  let price := default_to price (Str "499.00") in
  stamp <- now E ;;
  data <- shopifyRequest "products.json" "POST" (product_payload title fileUrl price stamp) ;;
  if negb (truthy data)
  then throw (Error ("Failed to create product: " ++ JSON_stringify E data))
  else
    product <- lift (get data "product") ;;
    if negb (truthy product)
    then throw (Error ("Failed to create product: " ++ JSON_stringify E data))
    else ret product.

Definition bad_request : reply :=
  Json 400 (Obj [("success", Bool false); ("message", Str "imageBase64 required")]).

(** [app.post('/api/create-custom-product', ...)] *)
Definition post_create_custom_product (req : request value) : M reply :=
  try_catch
    (title0 <- lift (get (req_body req) "title") ;;
     let title := default_to title0 (Str "Custom Jersey") in
     imageBase64 <- lift (get (req_body req) "imageBase64") ;;
     price <- lift (get (req_body req) "price") ;;
     if negb (truthy imageBase64) then ret bad_request
     else
       stamp <- now E ;;
       let filename := Str ("custom-" ++ to_str (Num stamp) ++ ".jpg") in
       fileUrl <- uploadFileToShopify imageBase64 filename ;;
       product <- createHiddenProductWithImage title fileUrl price ;;
       variants <- lift (get product "variants") ;;
       v0 <- and_then variants (lift (get_index variants 0)) ;;
       let variant := or_else v0 Null in
       variantId <- and_then variant (lift (get variant "id")) ;;
       sku <- and_then variant (lift (get variant "sku")) ;;
       productId <- lift (get product "id") ;;
       ret (Json 200 (Obj [("success", Bool true);
                           ("productId", productId);
                           ("variantId", variantId);
                           ("sku", sku);
                           ("fileUrl", fileUrl)])))
    (fun err => ret (server_error message_or_String err)).

(** [app.post('/webhooks/orders/create', ...)] *)
Definition post_orders_create (req : request value) : M reply :=
  let hmac := hmac_header req in
  let secret := SHOPIFY_WEBHOOK_SECRET E in
  if negb (secret =? "")%string then
    verdict <-
      try_catch
        (generatedHash <- lift (signature E req) ;;
         same <- lift (timingSafeEqual generatedHash hmac) ;;
         if negb same then ret (Some (Send 401 "HMAC mismatch")) else ret None)
        (fun _ => ret (Some (Send 401 "HMAC check error"))) ;;
    match verdict with
    | Some r => ret r
    | None => process_order E shopifyRequest Set_add (req_body req)
    end
  else process_order E shopifyRequest Set_add (req_body req).

(** [app.post('/admin/cleanup-temp-products', ...)] *)
Definition post_cleanup_temp_products (req : request value) : M reply :=
  cleanup_temp_products E shopifyRequest message_or_String req.

End Server.
End Part002a.

(* ================================================================== *)
(** ** src/unnamed/part_002, lines 260-432 *)

Module Part002b.
Section Server.

Context (E : env).

Definition shopifyRequest (path method : string) (body : value) : M value :=
  res <- fetch E (request_opts E path method body) ;;
  let '(_, _, text) := res in
  match JSON_parse E text with
  | Some v => ret v
  | None => throw (Error ("Shopify JSON parse error: " ++ text))
  end.

Definition upload_failed (data : value) : exn :=
  Error ("Shopify file upload failed: " ++ JSON_stringify E data).

Definition uploadFileToShopify (base64 filename : value) : M value :=
  let body := Obj [("file", Obj [("attachment", base64); ("filename", filename)])] in
  data <- shopifyRequest "files.json" "POST" body ;;
  if negb (truthy data) then throw (upload_failed data)
  else
    file <- lift (get data "file") ;;
    if negb (truthy file) then throw (upload_failed data)
    else
      file_url <- lift (get file "url") ;;
      if negb (truthy file_url) then throw (upload_failed data)
      else ret file_url.

Definition product_payload (title fileUrl price : value) (stamp : Z) : value :=
  Obj [("product", Obj [
    ("title", title);
    ("vendor", Str "Next Print");
    ("product_type", Str "Custom Jersey");
    ("published", Bool false);
    ("images", Arr [Obj [("src", fileUrl)]]);
    ("variants", Arr [Obj [
       ("option1", Str "Default");
       ("price", price);
       ("sku", Str (TEMP_SKU_PREFIX E ++ to_str (Num stamp)))]])])].

Definition createHiddenProductWithImage (title fileUrl price : value) : M value :=
  let title := default_to title (Str "Custom Jersey") in
  let price := default_to price (Str "499.00") in
  stamp <- now E ;;
  data <- shopifyRequest "products.json" "POST" (product_payload title fileUrl price stamp) ;;
  if negb (truthy data)
  then throw (Error ("Failed to create product: " ++ JSON_stringify E data))
  else
    product <- lift (get data "product") ;;
    if negb (truthy product)
    then throw (Error ("Failed to create product: " ++ JSON_stringify E data))
    else ret product.

Definition bad_request : reply :=
  Json 400 (Obj [("success", Bool false); ("message", Str "imageBase64 required")]).

(** [app.post('/api/create-custom-product', ...)] *)
Definition post_create_custom_product (req : request value) : M reply :=
  try_catch
    (title0 <- lift (get (req_body req) "title") ;;
     let title := default_to title0 (Str "Custom Jersey") in
     imageBase64 <- lift (get (req_body req) "imageBase64") ;;
     price <- lift (get (req_body req) "price") ;;
     if negb (truthy imageBase64) then ret bad_request
     else
       stamp <- now E ;;
       let filename := Str ("custom-" ++ to_str (Num stamp) ++ ".jpg") in
       fileUrl <- uploadFileToShopify imageBase64 filename ;;
       product <- createHiddenProductWithImage title fileUrl price ;;
       variants <- lift (get product "variants") ;;
       v0 <- and_then variants (lift (get_index variants 0)) ;;
       variantId <- and_then v0 (lift (get v0 "id")) ;;
       productId <- lift (get product "id") ;;
       first <- lift (get_index variants 0) ;;
       sku <- lift (get first "sku") ;;
       ret (Json 200 (Obj [("success", Bool true);
                           ("productId", productId);
                           ("variantId", variantId);
                           ("sku", sku);
                           ("fileUrl", fileUrl)])))
    (fun err => ret (Json 500 (Obj [("success", Bool false); ("message", Str (message err))]))).

(** [app.post('/webhooks/orders/create', ...)]: the signature is not computed
    inside a [try]; when that throws, the handler's promise rejects and
    nothing is sent. *)
Definition post_orders_create (req : request value) : M reply :=
  let hmac := hmac_header req in
  let secret := SHOPIFY_WEBHOOK_SECRET E in
  if negb (secret =? "")%string then
    generatedHash <- lift (signature E req) ;;
    same <- lift (timingSafeEqual generatedHash hmac) ;;
    if negb same then ret (Send 401 "HMAC mismatch")
    else process_order E shopifyRequest push (req_body req)
  else process_order E shopifyRequest push (req_body req).

(** [app.post('/admin/cleanup-temp-products', ...)] *)
Definition post_cleanup_temp_products (req : request value) : M reply :=
  cleanup_temp_products E shopifyRequest message req.

End Server.
End Part002b.

(* ================================================================== *)
(** ** src/unnamed/part_001, the GraphQL upload

    [shopifyRequestGraphQL] and [uploadFileToShopify] of the first file.  No
    route of that file calls them: [createHiddenProductWithImage] sends the
    image as an attachment instead. *)

(** [v.length], read where [v] is known to be truthy: the number of elements
    of an array, the length of a string (its byte length here, zero exactly
    when the string is empty), an own property of an object. *)
Definition length_of (v : value) : outcome value :=
  match v with
  | Undefined => Throw (TypeError "Cannot read properties of undefined (reading 'length')")
  | Null => Throw (TypeError "Cannot read properties of null (reading 'length')")
  | Arr l => Ok (Num (Z.of_nat (List.length l)))
  | Str s => Ok (Num (Z.of_nat (String.length s)))
  | Obj fs => Ok (lookup "length" fs)
  | Bool _ | Num _ => Ok Undefined
  end.

(** [v === 'name'] *)
Definition is_string (v : value) (name : string) : bool :=
  match v with
  | Str s => (s =? name)%string
  | _ => false
  end.

Module Part001Upload.
Section Server.

Context (E : env).

Definition graphql_request (query : string) (variables : value) : call :=
  MkCall (request_url E "graphql.json") "POST"
         [("X-Shopify-Access-Token", env_str E "SHOPIFY_ADMIN_API_TOKEN");
          ("Content-Type", "application/json")]
         (Some (Obj [("query", Str query); ("variables", variables)])).

Definition shopifyRequestGraphQL (query : string) (variables : value) : M value :=
  res <- fetch E (graphql_request query variables) ;;
  let '(_, _, text) := res in
  match JSON_parse E text with
  | Some v => ret v
  | None => throw (Error ("Shopify GraphQL parse error: " ++ text))
  end.

Definition fileCreate_query : string := "
    mutation fileCreate($files: [FileCreateInput!]!) {
      fileCreate(files: $files) {
        files {
          __typename
          ... on GenericFile { id url }
          ... on MediaImage { id preview { image { url } } }
        }
        userErrors { field message }
      }
    }
  ".

(** [`data:image/jpeg;base64,${base64}`] *)
Definition dataUri (base64 : value) : string :=
  "data:image/jpeg;base64," ++ to_str base64.

Definition fileCreate_variables (base64 filename : value) : value :=
  Obj [("files", Arr [Obj [("originalSource", Str (dataUri base64));
                           ("filename", filename)]])].

(** [a && a.length] as a condition, for a value [a] already read. *)
Definition non_empty (a : value) : outcome bool :=
  if truthy a then
    match length_of a with
    | Ok n => Ok (truthy n)
    | Throw e => Throw e
    end
  else Ok false.

(** What one turn of the loop over [files] returns, if it returns. *)
Definition usable_url (f : value) : outcome (option value) :=
  if negb (truthy f) then Ok None
  else
    match get f "__typename" with
    | Throw e => Throw e
    | Ok typename =>
        let generic :=
          if is_string typename "GenericFile" then
            match get f "url" with
            | Throw e => Throw e
            | Ok u => if truthy u then Ok (Some u) else Ok None
            end
          else Ok None in
        if is_string typename "MediaImage" then
          match get f "preview" with
          | Throw e => Throw e
          | Ok preview =>
              if truthy preview then
                match get preview "image" with
                | Throw e => Throw e
                | Ok image =>
                    if truthy image then
                      match get image "url" with
                      | Throw e => Throw e
                      | Ok u => if truthy u then Ok (Some u) else generic
                      end
                    else generic
                end
              else generic
          end
        else generic
    end.

(** The loop over [files]: the first usable URL, if any. *)
Fixpoint first_usable_url (files : list value) : outcome (option value) :=
  match files with
  | [] => Ok None
  | f :: rest =>
      match usable_url f with
      | Throw e => Throw e
      | Ok (Some u) => Ok (Some u)
      | Ok None => first_usable_url rest
      end
  end.

Definition uploadFileToShopify (base64 filename : value) : M value :=
  json <- shopifyRequestGraphQL fileCreate_query (fileCreate_variables base64 filename) ;;
  errors <- lift (get json "errors") ;;
  failed <- lift (non_empty errors) ;;
  if failed : bool
  then throw (Error ("GraphQL errors: " ++ JSON_stringify E errors))
  else
    data <- lift (get json "data") ;;
    fc <- and_then data (lift (get data "fileCreate")) ;;
    if negb (truthy fc)
    then throw (Error ("fileCreate missing in GraphQL response: " ++ JSON_stringify E json))
    else
      userErrors <- lift (get fc "userErrors") ;;
      refused <- lift (non_empty userErrors) ;;
      if refused : bool
      then throw (Error ("GraphQL userErrors: " ++ JSON_stringify E userErrors))
      else
        files0 <- lift (get fc "files") ;;
        files <- lift (iterate (or_else files0 (Arr []))) ;;
        found <- lift (first_usable_url files) ;;
        match found with
        | Some u => ret u
        | None =>
            throw (Error ("File upload returned no usable URL: " ++ JSON_stringify E json))
        end.

End Server.
End Part001Upload.

(* ================================================================== *)
(** ** src/theme-snippet.js

    [addCustomJerseyToCart] runs in the storefront page.  Its requests go to
    the page's own origin, so here [upstream] is that origin; what the
    shopper sees at the end of a run, an alert or the redirect to the
    checkout, is the value the run returns. *)

Module ThemeSnippet.
Section Page.

Context (E : env).

Inductive shown : Type :=
| Alert (text : string)
| Navigate (href : string).

(** The text before the first comma, and the text after it when there is
    one. *)
Fixpoint cut_comma (s : string) : string * option string :=
  match s with
  | EmptyString => (EmptyString, None)
  | String c s' =>
      if Ascii.eqb c ","%char then (EmptyString, Some s')
      else let (a, r) := cut_comma s' in (String c a, r)
  end.

(** [s.split(',')[1]] *)
Definition split_second (s : string) : value :=
  match snd (cut_comma s) with
  | None => Undefined
  | Some r => Str (fst (cut_comma r))
  end.

Definition page_request (path : string) (payload : value) : call :=
  MkCall path "POST" [("Content-Type", "application/json")] (Some payload).

Definition create_request (base64 price : value) : call :=
  page_request "/api/create-custom-product"
    (Obj [("title", Str "Custom Jersey"); ("imageBase64", base64); ("price", price)]).

Definition cart_request (variantId : value) : call :=
  page_request "/cart/add.js" (Obj [("id", variantId); ("quantity", Num 1)]).

(** [await (await fetch(...)).json()] *)
Definition fetch_json (c : call) : M value :=
  res <- fetch E c ;;
  let '(_, _, text) := res in
  match JSON_parse E text with
  | Some v => ret v
  | None => throw (SyntaxError "Unexpected token in JSON")
  end.

(** [canvas] is what [canvasEl.toDataURL('image/jpeg', 0.8)] gives: a data
    URL, or the error a tainted canvas throws. *)
Definition addCustomJerseyToCart (canvas : outcome string) (price : value) : M shown :=
  let price := default_to price (Str "499.00") in
  try_catch
    (dataUrl <- lift canvas ;;
     let base64 := split_second dataUrl in
     json <- fetch_json (create_request base64 price) ;;
     success <- lift (get json "success") ;;
     if negb (truthy success) then
       message <- lift (get json "message") ;;
       ret (Alert ("Create failed: " ++ to_str (or_else message (Str "unknown"))))
     else
       variantId <- lift (get json "variantId") ;;
       if negb (truthy variantId) then ret (Alert "No variant id returned")
       else
         fetch_json (cart_request variantId) ;;;
         ret (Navigate "/checkout"))
    (fun err => ret (Alert ("Something went wrong: " ++ message err))).

End Page.
End ThemeSnippet.

(* ================================================================== *)
(** ** Concrete environments

    A store, a clock and the graph of [JSON.parse] on the handful of texts
    that occur, used to run the handlers on explicit inputs. *)

Module Fixtures.

(** The double-quote character and a quoted name. *)
Definition dq : string := String (ascii_of_nat 34) EmptyString.
Definition q (s : string) : string := dq ++ s ++ dq.

Fixpoint assoc {A} (k : string) (tbl : list (string * A)) : option A :=
  match tbl with
  | [] => None
  | (k', a) :: tbl' => if (k =? k')%string then Some a else assoc k tbl'
  end.

(** [process.env] with the two required variables set. *)
Definition settings (extra : list (string * string)) (k : string) : option string :=
  assoc k (extra ++ [("SHOPIFY_STORE", "shop.myshopify.com");
                     ("SHOPIFY_ADMIN_API_TOKEN", "shpat_0")]).

(** JSON texts and the values [JSON.parse] gives for them. *)
Definition txt_null : string := "null".
Definition txt_empty_object : string := "{}".
Definition txt_not_found : string := "{" ++ q "errors" ++ ":" ++ q "Not Found" ++ "}".
Definition txt_variant_of_7 : string :=
  "{" ++ q "variant" ++ ":{" ++ q "id" ++ ":11," ++ q "product_id" ++ ":7}}".
Definition txt_product_other_sku : string :=
  "{" ++ q "product" ++ ":{" ++ q "id" ++ ":7," ++ q "variants" ++ ":[{"
      ++ q "id" ++ ":11," ++ q "sku" ++ ":" ++ q "OTHER" ++ "}]}}".
Definition txt_product_echo : string :=
  "{" ++ q "product" ++ ":{" ++ q "id" ++ ":7," ++ q "variants" ++ ":[{"
      ++ q "id" ++ ":11," ++ q "sku" ++ ":" ++ q "CUST-1700000000000" ++ "}]}}".
Definition txt_file : string :=
  "{" ++ q "file" ++ ":{" ++ q "url" ++ ":" ++ q "https://cdn.example/custom.jpg" ++ "}}".
Definition txt_order_twice : string :=
  "{" ++ q "line_items" ++ ":[{" ++ q "sku" ++ ":" ++ q "CUST-1700000000000" ++ ","
      ++ q "variant_id" ++ ":11},{" ++ q "sku" ++ ":" ++ q "CUST-1700000000000" ++ ","
      ++ q "variant_id" ++ ":11}]}".
Definition txt_order_null_item : string := "{" ++ q "line_items" ++ ":[null]}".
Definition txt_order_no_items : string := "{" ++ q "id" ++ ":1}".
Definition txt_unpublished : string :=
  "{" ++ q "products" ++ ":[{" ++ q "id" ++ ":7," ++ q "variants" ++ ":[{"
      ++ q "sku" ++ ":" ++ q "CUST-1700000000000" ++ "}]},{" ++ q "id" ++ ":8,"
      ++ q "variants" ++ ":[{" ++ q "sku" ++ ":" ++ q "SHIRT-1" ++ "}]}]}".

Definition line_item : value :=
  Obj [("sku", Str "CUST-1700000000000"); ("variant_id", Num 11)].

Definition json_table : list (string * value) :=
  [ (txt_null, Null);
    (txt_empty_object, Obj []);
    (txt_not_found, Obj [("errors", Str "Not Found")]);
    (txt_variant_of_7, Obj [("variant", Obj [("id", Num 11); ("product_id", Num 7)])]);
    (txt_product_other_sku,
       Obj [("product", Obj [("id", Num 7);
                             ("variants", Arr [Obj [("id", Num 11); ("sku", Str "OTHER")]])])]);
    (txt_product_echo,
       Obj [("product", Obj [("id", Num 7);
                             ("variants", Arr [Obj [("id", Num 11);
                                                    ("sku", Str "CUST-1700000000000")]])])]);
    (txt_file, Obj [("file", Obj [("url", Str "https://cdn.example/custom.jpg")])]);
    (txt_order_twice, Obj [("line_items", Arr [line_item; line_item])]);
    (txt_order_null_item, Obj [("line_items", Arr [Null])]);
    (txt_order_no_items, Obj [("id", Num 1)]);
    (txt_unpublished,
       Obj [("products",
             Arr [Obj [("id", Num 7);
                       ("variants", Arr [Obj [("sku", Str "CUST-1700000000000")]])];
                  Obj [("id", Num 8);
                       ("variants", Arr [Obj [("sku", Str "SHIRT-1")]])]])]) ].

(** A store that answers every request with status [st] and body [text]. *)
Definition always (st : Z) (stt text : string) (_ : list call) (_ : call) : fetch_result :=
  Response st stt text.

(** A store with one temporary product, 7, whose variant is 11: variant
    look-ups succeed, deletions answer with an empty object, file uploads
    return a URL and product creation returns [created]. *)
Definition store (created : string) (_ : list call) (c : call) : fetch_result :=
  if (method c =? "GET")%string then Response 200 "OK" txt_variant_of_7
  else if (method c =? "DELETE")%string then Response 200 "OK" txt_empty_object
  else if (url c =? "https://shop.myshopify.com/admin/api/2024-07/files.json")%string
       then Response 201 "Created" txt_file
  else Response 201 "Created" created.

(** A store listing two unpublished products, 7 (temporary) and 8. *)
Definition catalogue (_ : list call) (c : call) : fetch_result :=
  if (method c =? "GET")%string then Response 200 "OK" txt_unpublished
  else Response 200 "OK" txt_empty_object.

(** The same store when every deletion is refused with status 500. *)
Definition store_refusing_deletes (h : list call) (c : call) : fetch_result :=
  if (method c =? "DELETE")%string
  then Response 500 "Internal Server Error" txt_empty_object
  else store txt_empty_object h c.

(** A base64 HMAC-SHA256 digest is 44 characters long. *)
Definition digest : string := "3q2+796tvu8AAQIDBAUGBwgJCgsMDQ4PEBESExQVFhc=".

Definition mk (extra : list (string * string))
              (up : list call -> call -> fetch_result) (clock : nat -> Z) : env :=
  MkEnv (settings extra) up clock
        (fun s => assoc s json_table)
        (fun _ => "<json>")
        (fun _ _ => digest).

Definition millis : Z := 1700000000000.

End Fixtures.

(** More texts: answers of the create route as the storefront page sees
    them, and answers of the GraphQL endpoint. *)
Module Samples.

Import Fixtures.

Definition txt_created : string :=
  "{" ++ q "success" ++ ":true," ++ q "productId" ++ ":7," ++ q "variantId" ++ ":11,"
      ++ q "sku" ++ ":" ++ q "CUST-1700000000000" ++ "}".
Definition txt_create_failed : string :=
  "{" ++ q "success" ++ ":false," ++ q "message" ++ ":" ++ q "imageBase64 required" ++ "}".
Definition txt_file_created : string :=
  "{" ++ q "data" ++ ":{" ++ q "fileCreate" ++ ":{" ++ q "files" ++ ":[null,{"
      ++ q "__typename" ++ ":" ++ q "GenericFile" ++ "," ++ q "url" ++ ":"
      ++ q "https://cdn.example/a.jpg" ++ "}]," ++ q "userErrors" ++ ":[]}}}".
Definition txt_graphql_errors : string :=
  "{" ++ q "errors" ++ ":[{" ++ q "message" ++ ":" ++ q "Throttled" ++ "}]}".

Definition json_table : list (string * value) :=
  [ (txt_empty_object, Obj []);
    (txt_created,
       Obj [("success", Bool true); ("productId", Num 7); ("variantId", Num 11);
            ("sku", Str "CUST-1700000000000")]);
    (txt_create_failed,
       Obj [("success", Bool false); ("message", Str "imageBase64 required")]);
    (txt_file_created,
       Obj [("data", Obj [("fileCreate",
              Obj [("files", Arr [Null; Obj [("__typename", Str "GenericFile");
                                             ("url", Str "https://cdn.example/a.jpg")]]);
                   ("userErrors", Arr [])])])]);
    (txt_graphql_errors, Obj [("errors", Arr [Obj [("message", Str "Throttled")]])]) ].

(** The storefront's origin: the create route answers [created], the cart
    answers an empty object. *)
Definition origin (created : string) (_ : list call) (c : call) : fetch_result :=
  if (url c =? "/api/create-custom-product")%string
  then Response 200 "OK" created
  else Response 200 "OK" txt_empty_object.

Definition mk (up : list call -> call -> fetch_result) : env :=
  MkEnv (settings []) up (fun _ => millis)
        (fun s => assoc s json_table)
        (fun _ => "<json>")
        (fun _ _ => digest).

End Samples.

(* ================================================================== *)
(** ** Vocabulary of the statements *)

(** The upstream helper sends exactly one request, whatever comes back. *)
Definition sends_one (E : env) (sr : string -> string -> value -> M value) : Prop :=
  forall path method body w,
    snd (sr path method body w) =
    MkWorld (calls w ++ [request_opts E path method body]) (ticks w).

(** Values JavaScript prints digit for digit as [to_str] and [ToString] do:
    integers up to 2^53 in absolute value, and no object that carries a
    [toString] property of its own. *)
Fixpoint printable (v : value) : bool :=
  match v with
  | Num z => (Z.abs z <=? 2 ^ 53)%Z
  | Arr l => forallb printable l
  | Obj fs => match lookup "toString" fs with Undefined => true | _ => false end
  | Undefined | Null | Bool _ | Str _ => true
  end.

(** The handler gets the order [j] out of the request: no secret is
    configured and [JSON.parse(req.body.toString('utf8'))] gives [j].  An
    object in [req.body] never does, its text being [[object Object]]; an
    array does when its elements, joined by commas, spell a JSON text, as
    the one-element array that holds an order's text as a string. *)
Definition reads_order (E : env) (req : request value) (j : value) : Prop :=
  SHOPIFY_WEBHOOK_SECRET E = "" /\
  printable (req_body req) = true /\
  exists text, body_toString (req_body req) = Ok text /\ JSON_parse E text = Some j.

(** The request [deleteProduct] sends for a product id. *)
Definition delete_request (E : env) (pid : value) : call :=
  request_opts E ("products/" ++ to_str pid ++ ".json") "DELETE" Null.

(** The request the scan sends to resolve a variant reference. *)
Definition lookup_request (E : env) (variantId : value) : call :=
  request_opts E ("variants/" ++ to_str variantId ++ ".json") "GET" Null.

(** The request the admin sweep starts with. *)
Definition list_request (E : env) : call :=
  request_opts E "products.json?limit=250&published_status=unpublished" "GET" Null.

(** The world after the requests [l] have been sent. *)
Definition sent (w : world) (l : list call) : world :=
  MkWorld (calls w ++ l) (ticks w).

(** Orders the scan can read.  The scan of the line items throws, and the
    handler answers 500, when the body is [null], when [line_items] is truthy
    but neither an array nor a string, when an item is [null], or when an
    item's [sku] is truthy but not a string; [scannable] excludes exactly
    these shapes. *)
Definition readable_sku (sku : value) : bool :=
  match sku with
  | Str _ => true
  | _ => negb (truthy sku)
  end.

Definition readable_item (li : value) : bool :=
  match li with
  | Undefined | Null => false
  | Obj fs => readable_sku (lookup "sku" fs)
  | Bool _ | Num _ | Str _ | Arr _ => true
  end.

Definition readable_items (line_items : value) : bool :=
  match line_items with
  | Arr l => forallb readable_item l
  | Str _ => true
  | _ => negb (truthy line_items)
  end.

Definition scannable (j : value) : bool :=
  match j with
  | Undefined | Null => false
  | Obj fs => readable_items (lookup "line_items" fs)
  | Bool _ | Num _ | Str _ | Arr _ => true
  end.

(** The body can be read but has no [imageBase64] property. *)
Definition lacks (body : value) (k : string) : Prop := get body k = Ok Undefined.

(** A string of ASCII letters, what [[a-zA-Z]+] consumes. *)
Fixpoint letters (s : string) : bool :=
  match s with
  | EmptyString => true
  | String c s' => is_letter c && letters s'
  end.

(** What upstream returned to request [c], sent after the requests [before],
    when it answered with a success status and a body that parses. *)
Definition answered (E : env) (before : list call) (c : call) (v : value) : Prop :=
  exists st stt txt,
    upstream E before c = Response st stt txt /\
    res_ok st = true /\
    JSON_parse E txt = Some v.

(** Plain readers of a JSON value. *)
Definition field (k : string) (v : value) : value :=
  match v with Obj fs => lookup k fs | _ => Undefined end.

(** The first element of an array. *)
Definition first (v : value) : value :=
  match v with Arr (x :: _) => x | _ => Undefined end.

(** [product.variants[0].sku] *)
Definition first_variant_sku (product : value) : value :=
  field "sku" (first (field "variants" product)).

(** The first variant of a product, [null] when it has none:
    [(product.variants && product.variants[0]) || null]. *)
Definition first_variant (product : value) : value :=
  let variants := field "variants" product in
  if truthy variants
  then or_else (match get_index variants 0 with Ok v => v | Throw _ => Undefined end) Null
  else Null.

(** The SKU of a variant, [null] for no variant: [variant && variant.sku]. *)
Definition sku_of (variant : value) : value :=
  if truthy variant then field "sku" variant else Null.

(** The SKU a product-creation request carries. *)
Definition sku_sent (c : call) : value :=
  match body c with
  | Some b => first_variant_sku (field "product" b)
  | None => Undefined
  end.

(** The SKU generated at clock reading [stamp]. *)
Definition generated_sku (E : env) (stamp : Z) : string :=
  TEMP_SKU_PREFIX E ++ string_of_Z stamp.

(** The image data a request carries: [product.images[0].attachment] of a
    product-creation request, [file.attachment] of a file upload. *)
Definition image_sent (c : call) : value :=
  match body c with
  | Some b =>
      match field "file" b with
      | Undefined => field "attachment" (first (field "images" (field "product" b)))
      | file => field "attachment" file
      end
  | None => Undefined
  end.

(** The SKU carried by the last request of a run. *)
Definition last_sku (w : world) : value :=
  match List.rev (calls w) with
  | c :: _ => sku_sent c
  | [] => Undefined
  end.

(** No member is the same value, in the sense of [Set], as a later one. *)
Fixpoint distinct (s : list value) : Prop :=
  match s with
  | [] => True
  | x :: r => existsb (same_value_zero x) r = false /\ distinct r
  end.

(** The numeric ids among collected product ids. *)
Definition numeric_ids (s : list value) : list Z :=
  flat_map (fun v => match v with Num z => [z] | _ => [] end) s.

(** Upstream answered request [c], sent after the requests [before], with a
    body that parses to [v], whatever the status. *)
Definition replied (E : env) (before : list call) (c : call) (v : value) : Prop :=
  exists st stt txt,
    upstream E before c = Response st stt txt /\
    JSON_parse E txt = Some v.

(** What the upstream helper returns is what upstream sent back. *)
Definition reads_reply (E : env) (sr : string -> string -> value -> M value) : Prop :=
  forall path method body w v w',
    sr path method body w = (Ok v, w') ->
    replied E (calls w) (request_opts E path method body) v.

(** A non-empty string that starts with the reserved prefix. *)
Definition temp_sku (E : env) (sku : value) : bool :=
  match sku with
  | Str s => negb (s =? "")%string && starts_with s (TEMP_SKU_PREFIX E)
  | _ => false
  end.

(** The variant reference of a line item that carries a temporary SKU and a
    truthy [variant_id]. *)
Definition temp_variant (E : env) (li : value) : option value :=
  if temp_sku E (field "sku" li)
  then (if truthy (field "variant_id" li) then Some (field "variant_id" li) else None)
  else None.

(** The variant references the scan looks up, in order. *)
Definition wanted (E : env) (items : list value) : list value :=
  flat_map (fun li => match temp_variant E li with Some v => [v] | None => [] end) items.

(** The line items of an order. *)
Definition order_items (j : value) : list value :=
  match iterate (or_else (field "line_items" j) (Arr [])) with
  | Ok l => l
  | Throw _ => []
  end.

(** Upstream, asked about the variant of line item [li] after the requests
    [before], named [pid] as its product. *)
Definition resolved (E : env) (before : list call) (li pid : value) : Prop :=
  exists vid vdata,
    temp_variant E li = Some vid /\
    replied E before (lookup_request E vid) vdata /\
    field "product_id" (field "variant" vdata) = pid /\
    truthy pid = true.

(** A listed product with a variant whose SKU is temporary. *)
Definition is_temporary (E : env) (p : value) : bool :=
  match field "variants" p with
  | Arr l => existsb (fun v => temp_sku E (field "sku" v)) l
  | _ => false
  end.

(** A listed product the sweep can examine: it is not [null], its [variants]
    is absent, falsy or an array, and no variant is [null] or has a [sku]
    that is truthy but not a string. *)
Definition sweepable (p : value) : bool :=
  match p with
  | Undefined | Null => false
  | _ =>
      match field "variants" p with
      | Arr l => forallb readable_item l
      | v => negb (truthy v)
      end
  end.

(** The product a creation request describes. *)
Definition product_sent (c : call) : value :=
  match body c with
  | Some b => field "product" b
  | None => Undefined
  end.

(** The file [f] of a [fileCreate] answer offers the URL [u]: it is a
    [MediaImage] with [u] as its preview image URL, or a [GenericFile] with
    [u] as its URL. *)
Definition offers (f u : value) : Prop :=
  (is_string (field "__typename" f) "MediaImage" = true /\
   field "url" (field "image" (field "preview" f)) = u) \/
  (is_string (field "__typename" f) "GenericFile" = true /\
   field "url" f = u).

(** The [originalSource] of the first file of a [fileCreate] request. *)
Definition source_sent (c : call) : value :=
  match body c with
  | Some b => field "originalSource" (first (field "files" (field "variables" b)))
  | None => Undefined
  end.

(** A request that only reads. *)
Definition is_GET (c : call) : Prop := method c = "GET".

(** A request that deletes. *)
Definition is_DELETE (c : call) : Prop := method c = "DELETE".

(** A string without the character [c]. *)
Fixpoint without (c : ascii) (s : string) : bool :=
  match s with
  | EmptyString => true
  | String a s' => negb (Ascii.eqb a c) && without c s'
  end.

(* ================================================================== *)
(** ** Properties *)

(** *** The upstream helper sends exactly one request *)

Ltac run_helper :=
  intros E path method body w;
  cbv beta delta [Part001.shopifyRequest Part002a.shopifyRequest
                  Part002b.shopifyRequest bind fetch throw ret];
  destruct (upstream E (calls w) (request_opts E path method body))
    as [e | st stt txt]; cbn [snd]; try reflexivity;
  try (destruct (negb (res_ok st)); cbn [snd]; try reflexivity);
  destruct (JSON_parse E txt); reflexivity.

Lemma sends_one_Part001 E : sends_one E (Part001.shopifyRequest E).
Proof. revert E. unfold sends_one. run_helper. Qed.

Lemma sends_one_Part002a E : sends_one E (Part002a.shopifyRequest E).
Proof. revert E. unfold sends_one. run_helper. Qed.

Lemma sends_one_Part002b E : sends_one E (Part002b.shopifyRequest E).
Proof. revert E. unfold sends_one. run_helper. Qed.

(** *** Non-success statuses in the upstream helper *)

Lemma shopifyRequest_Part001_not_ok E path method body w st stt txt :
  upstream E (calls w) (request_opts E path method body) = Response st stt txt ->
  res_ok st = false ->
  fst (Part001.shopifyRequest E path method body w) =
  Throw (Error ("Shopify API error (" ++ string_of_Z st ++ "): " ++ txt)).
Proof.
  intros Hup Hok.
  cbv beta delta [Part001.shopifyRequest bind fetch throw].
  rewrite Hup. cbv beta iota zeta. rewrite Hok. reflexivity.
Qed.

Lemma shopifyRequest_Part002a_not_ok E path method body w st stt txt :
  upstream E (calls w) (request_opts E path method body) = Response st stt txt ->
  res_ok st = false ->
  fst (Part002a.shopifyRequest E path method body w) =
  Throw (Error ("Shopify API error (" ++ string_of_Z st ++ " " ++ stt ++ "): " ++ txt)).
Proof.
  intros Hup Hok.
  cbv beta delta [Part002a.shopifyRequest bind fetch throw].
  rewrite Hup. cbv beta iota zeta. rewrite Hok. reflexivity.
Qed.

(** In the third file the status is never looked at: whatever parses is
    returned. *)
Lemma shopifyRequest_Part002b_any_status E path method body w st stt txt v :
  upstream E (calls w) (request_opts E path method body) = Response st stt txt ->
  JSON_parse E txt = Some v ->
  fst (Part002b.shopifyRequest E path method body w) = Ok v.
Proof.
  intros Hup Hparse.
  cbv beta delta [Part002b.shopifyRequest bind fetch ret].
  rewrite Hup. cbv beta iota zeta. rewrite Hparse. reflexivity.
Qed.

(** C3, at the failing input: the store answers 404 with a JSON error body
    and the helper of the third file returns the parsed body to its caller
    instead of failing. *)
Theorem shopifyRequest_Part002b_returns_on_404 :
  let E := Fixtures.mk [] (Fixtures.always 404 "Not Found" Fixtures.txt_not_found)
                       (fun _ => Fixtures.millis) in
  res_ok 404 = false /\
  fst (Part002b.shopifyRequest E "products/7.json" "DELETE" Null w0) =
    Ok (Obj [("errors", Str "Not Found")]) /\
  fst (Part001.shopifyRequest E "products/7.json" "DELETE" Null w0) =
    Throw (Error ("Shopify API error (404): " ++ Fixtures.txt_not_found)) /\
  fst (Part002a.shopifyRequest E "products/7.json" "DELETE" Null w0) =
    Throw (Error ("Shopify API error (404 Not Found): " ++ Fixtures.txt_not_found)).
Proof. vm_compute. repeat split. Qed.

(** *** The signature step of the webhook *)

Ltac open_webhook :=
  cbv beta delta [Part001.post_orders_create Part002a.post_orders_create
                  Part002b.post_orders_create bind try_catch lift ret];
  cbv zeta.

(** Without a secret the handler is its processing block. *)
Lemma unguarded_Part001 E req w :
  SHOPIFY_WEBHOOK_SECRET E = "" ->
  Part001.post_orders_create E req w =
  process_order E (Part001.shopifyRequest E) Set_add (req_body req) w.
Proof. intros Hno. open_webhook. rewrite Hno. reflexivity. Qed.

Lemma unguarded_Part002a E req w :
  SHOPIFY_WEBHOOK_SECRET E = "" ->
  Part002a.post_orders_create E req w =
  process_order E (Part002a.shopifyRequest E) Set_add (req_body req) w.
Proof. intros Hno. open_webhook. rewrite Hno. reflexivity. Qed.

Lemma unguarded_Part002b E req w :
  SHOPIFY_WEBHOOK_SECRET E = "" ->
  Part002b.post_orders_create E req w =
  process_order E (Part002b.shopifyRequest E) push (req_body req) w.
Proof. intros Hno. open_webhook. rewrite Hno. reflexivity. Qed.

(** [update] throws on everything [express.json] can have left in
    [req.body]. *)
Lemma signature_throws E req :
  (forall s, req_body req <> Str s) ->
  exists m, signature E req = Throw (TypeError m).
Proof.
  intros Hbody. unfold signature, hmac_update.
  destruct (req_body req) as [| | b | z | s | l | fs]; try (eexists; reflexivity).
  exfalso. exact (Hbody s eq_refl).
Qed.

(** With a secret, the [catch] around the check of the first two files turns
    that into a 401; the third file has no [try] there. *)
Lemma guarded_Part001 E req w :
  SHOPIFY_WEBHOOK_SECRET E <> "" ->
  (forall s, req_body req <> Str s) ->
  Part001.post_orders_create E req w = (Ok (Send 401 "HMAC error"), w).
Proof.
  intros Hsecret Hbody. open_webhook.
  destruct (String.eqb_spec (SHOPIFY_WEBHOOK_SECRET E) ""); [contradiction |].
  cbn [negb]. destruct (signature_throws E req Hbody) as [m Hm]. rewrite Hm. reflexivity.
Qed.

Lemma guarded_Part002a E req w :
  SHOPIFY_WEBHOOK_SECRET E <> "" ->
  (forall s, req_body req <> Str s) ->
  Part002a.post_orders_create E req w = (Ok (Send 401 "HMAC check error"), w).
Proof.
  intros Hsecret Hbody. open_webhook.
  destruct (String.eqb_spec (SHOPIFY_WEBHOOK_SECRET E) ""); [contradiction |].
  cbn [negb]. destruct (signature_throws E req Hbody) as [m Hm]. rewrite Hm. reflexivity.
Qed.

Lemma guarded_Part002b E req w :
  SHOPIFY_WEBHOOK_SECRET E <> "" ->
  (forall s, req_body req <> Str s) ->
  exists m, Part002b.post_orders_create E req w = (Throw (TypeError m), w).
Proof.
  intros Hsecret Hbody. open_webhook.
  destruct (String.eqb_spec (SHOPIFY_WEBHOOK_SECRET E) ""); [contradiction |].
  cbn [negb]. destruct (signature_throws E req Hbody) as [m Hm]. rewrite Hm.
  exists m. reflexivity.
Qed.

(** C2, at the failing input: a secret is configured and an order is posted
    with the HMAC of its bytes in the signature header.  [req.body] holds
    the order as [express.json] parsed it, [update] throws on it, and the
    correctly signed request is refused: the first two files answer 401 from
    the [catch] around the check, the third sends no reply at all.  Nothing
    is processed in any of them. *)
Theorem webhook_signed_request_is_refused :
  let E := Fixtures.mk [("SHOPIFY_WEBHOOK_SECRET", "s3cret")]
                       (Fixtures.store Fixtures.txt_empty_object)
                       (fun _ => Fixtures.millis) in
  let posted := Fixtures.txt_order_twice in
  let order := Obj [("line_items", Arr [Fixtures.line_item; Fixtures.line_item])] in
  let header (h : string) :=
    if (h =? "X-Shopify-Hmac-Sha256")%string
    then Some (hmac_sha256_base64 E "s3cret" posted) else None in
  let req := MkReq header order in
  SHOPIFY_WEBHOOK_SECRET E = "s3cret" /\
  JSON_parse E posted = Some order /\
  hmac_header req = hmac_sha256_base64 E (SHOPIFY_WEBHOOK_SECRET E) posted /\
  Part001.post_orders_create E req w0 = (Ok (Send 401 "HMAC error"), w0) /\
  Part002a.post_orders_create E req w0 = (Ok (Send 401 "HMAC check error"), w0) /\
  exists m, Part002b.post_orders_create E req w0 = (Throw (TypeError m), w0).
Proof.
  cbv zeta. repeat split; try (vm_compute; reflexivity).
  eexists. vm_compute. reflexivity.
Qed.

(** *** The webhook's processing block *)

Section Processing.

Context (E : env).
Context (shopifyRequest : string -> string -> value -> M value).
Context (collect : value -> list value -> list value).
Hypothesis one_request : sends_one E shopifyRequest.

Local Abbreviation scan := (scan_line_item E shopifyRequest collect).
Local Abbreviation process := (process_order E shopifyRequest collect).
Local Abbreviation delete := (delete_one shopifyRequest).

Lemma sent_nil w : sent w [] = w.
Proof. destruct w. unfold sent. cbn. rewrite app_nil_r. reflexivity. Qed.

Lemma sent_sent w l1 l2 : sent (sent w l1) l2 = sent w (l1 ++ l2).
Proof. unfold sent. cbn. rewrite app_assoc. reflexivity. Qed.

(** A deletion attempt sends its request and never throws, whatever the
    store answers. *)
Lemma delete_one_total pid w :
  delete pid tt w = (Ok tt, sent w [delete_request E pid]).
Proof.
  unfold delete_one, deleteProduct, try_catch, bind, ret.
  pose proof (one_request ("products/" ++ to_str pid ++ ".json") "DELETE" Null w) as Hw.
  destruct (shopifyRequest _ _ _ w) as [[v | e] w']; cbn [snd] in Hw; subst w'; reflexivity.
Qed.

(** The deletion loop attempts every collected id, in order. *)
Lemma delete_all_total pids w :
  for_of pids delete tt w = (Ok tt, sent w (map (delete_request E) pids)).
Proof.
  revert w. induction pids as [| pid pids IH]; intros w; cbn [for_of map].
  - unfold ret. rewrite sent_nil. reflexivity.
  - unfold bind. rewrite delete_one_total, IH, sent_sent. reflexivity.
Qed.

(** The text of [req.body] decides the run when [JSON.parse] rejects it. *)
Lemma process_unparsable body raw w :
  body_toString body = Ok raw ->
  JSON_parse E raw = None ->
  process body w = (Ok (Send 500 "Error"), w).
Proof.
  intros Htext Hparse.
  unfold process_order, try_catch, bind, parse, lift, throw. rewrite Htext, Hparse.
  reflexivity.
Qed.

Lemma process_unprintable body e w :
  body_toString body = Throw e ->
  process body w = (Ok (Send 500 "Error"), w).
Proof.
  intros Htext.
  unfold process_order, try_catch, bind, lift. rewrite Htext. reflexivity.
Qed.

(** An object in [req.body] is never read as an order. *)
Lemma process_object fs w :
  JSON_parse E "[object Object]" = None ->
  process (Obj fs) w = (Ok (Send 500 "Error"), w).
Proof.
  intros Hparse.
  destruct (body_toString (Obj fs)) as [raw | e] eqn:Htext.
  - apply (process_unparsable _ raw); [exact Htext |].
    cbn [body_toString] in Htext.
    destruct (lookup "toString" fs); try discriminate Htext.
    injection Htext as <-. exact Hparse.
  - apply (process_unprintable _ e). exact Htext.
Qed.

(** A value whose [line_items] is absent or falsy is an empty order. *)
Lemma process_no_line_items body raw j li w :
  body_toString body = Ok raw ->
  JSON_parse E raw = Some j ->
  get j "line_items" = Ok li ->
  truthy li = false ->
  process body w = (Ok (Send 200 "OK"), w).
Proof.
  intros Htext Hparse Hget Hfalsy.
  unfold process_order, try_catch, bind, parse, lift, ret.
  rewrite Htext, Hparse, Hget. unfold or_else. rewrite Hfalsy. reflexivity.
Qed.

End Processing.

(** C10, at the failing input: an order without [line_items] posted to a
    server without a webhook secret.  The body parses as JSON, and that is
    what undoes it: the handler reads [req.body.toString('utf8')] of the
    parsed object, [JSON.parse] rejects the text [[object Object]], and each
    of the three files answers 500 where the claim says 200. *)
Theorem webhook_order_without_line_items_is_answered_500 :
  let E := Fixtures.mk [] (Fixtures.store Fixtures.txt_empty_object)
                       (fun _ => Fixtures.millis) in
  let posted := Fixtures.txt_order_no_items in
  let order := Obj [("id", Num 1)] in
  let req := MkReq (fun _ => None) order in
  JSON_parse E posted = Some order /\
  get order "line_items" = Ok Undefined /\
  body_toString (req_body req) = Ok "[object Object]" /\
  JSON_parse E "[object Object]" = None /\
  Part001.post_orders_create E req w0 = (Ok (Send 500 "Error"), w0) /\
  Part002a.post_orders_create E req w0 = (Ok (Send 500 "Error"), w0) /\
  Part002b.post_orders_create E req w0 = (Ok (Send 500 "Error"), w0).
Proof. vm_compute. repeat split. Qed.

(** *** Orders the scan can read *)

Section Scanning.

Context (E : env).
Context (shopifyRequest : string -> string -> value -> M value).
Context (collect : value -> list value -> list value).
Hypothesis one_request : sends_one E shopifyRequest.

Local Abbreviation scan := (scan_line_item E shopifyRequest collect).
Local Abbreviation process := (process_order E shopifyRequest collect).
Local Abbreviation delete := (delete_one shopifyRequest).

Ltac settle s w :=
  first [ exists s, []; rewrite sent_nil; reflexivity
        | do 2 eexists; reflexivity ].

Lemma is_temp_sku_readable sku0 :
  readable_sku sku0 = true ->
  exists hit, is_temp_sku E (or_else sku0 (Str "")) = Ok hit.
Proof.
  unfold or_else, is_temp_sku.
  destruct sku0 as [| | b | z | sku | l | fs]; cbn [readable_sku truthy negb];
    try discriminate; intros H.
  - exists false. reflexivity.
  - exists false. reflexivity.
  - destruct b; [discriminate H |]. exists false. reflexivity.
  - destruct (negb (z =? 0)%Z); [discriminate H |]. exists false. reflexivity.
  - destruct (negb (sku =? "")%string) eqn:Hs; cbn [truthy].
    + rewrite Hs. eexists. reflexivity.
    + exists false. reflexivity.
Qed.

(** Reading one readable item never throws; it sends at most the look-up of
    its variant. *)
Lemma scan_item_total li s w :
  readable_item li = true ->
  exists s' l, scan li s w = (Ok s', sent w l).
Proof.
  intros Hli.
  assert (exists sku0, get li "sku" = Ok sku0 /\ readable_sku sku0 = true /\
                       get li "variant_id" = Ok (match li with
                                                 | Obj fs => lookup "variant_id" fs
                                                 | _ => Undefined
                                                 end)) as (sku0 & Hget & Hsku & Hvid).
  { destruct li as [| | b | z | str | l | fs]; try discriminate Hli; cbn [get];
      eexists; repeat split; try reflexivity; exact Hli. }
  destruct (is_temp_sku_readable sku0 Hsku) as [hit Hhit].
  unfold scan_line_item, bind, lift, try_catch, ret.
  rewrite Hget, Hhit.
  destruct hit; [| settle s w].
  rewrite Hvid.
  set (variantId := match li with Obj fs => lookup "variant_id" fs | _ => Undefined end).
  destruct (truthy variantId); [| settle s w].
  pose proof (one_request ("variants/" ++ to_str variantId ++ ".json") "GET" Null w) as Hw.
  destruct (shopifyRequest _ _ _ w) as [[vdata | e] w']; cbn [snd] in Hw; subst w';
    [| do 2 eexists; reflexivity].
  destruct (truthy vdata); [| do 2 eexists; reflexivity].
  destruct (get vdata "variant") as [variant | e]; [| do 2 eexists; reflexivity].
  destruct (truthy variant); [| do 2 eexists; reflexivity].
  destruct (get variant "product_id") as [pid | e]; [| do 2 eexists; reflexivity].
  destruct (truthy pid); do 2 eexists; reflexivity.
Qed.

Lemma scan_items_total items :
  forallb readable_item items = true ->
  forall s w, exists s' l, for_of items scan s w = (Ok s', sent w l).
Proof.
  induction items as [| li items IH]; intros Hall s w; cbn [for_of].
  - exists s, []. unfold ret. rewrite sent_nil. reflexivity.
  - cbn [forallb] in Hall. apply andb_prop in Hall as [Hli Hrest].
    destruct (scan_item_total li s w Hli) as (s1 & l1 & H1).
    destruct (IH Hrest s1 (sent w l1)) as (s2 & l2 & H2).
    exists s2, (l1 ++ l2)%list. unfold bind. rewrite H1, H2, sent_sent. reflexivity.
Qed.

Lemma chars_readable str : forallb readable_item (chars str) = true.
Proof.
  unfold chars. induction (list_ascii_of_string str) as [| c cs IH]; [reflexivity |].
  cbn [map forallb readable_item andb]. exact IH.
Qed.

Lemma scannable_items j :
  scannable j = true ->
  exists li items,
    get j "line_items" = Ok li /\
    iterate (or_else li (Arr [])) = Ok items /\
    forallb readable_item items = true.
Proof.
  intros Hj.
  assert (forall li, readable_items li = true ->
            exists items, iterate (or_else li (Arr [])) = Ok items /\
                          forallb readable_item items = true) as Hitems.
  { intros li Hli. unfold or_else.
    destruct li as [| | b | z | str | l | fs]; cbn [readable_items truthy negb] in Hli |- *.
    - exists []. split; reflexivity.
    - exists []. split; reflexivity.
    - destruct b; [discriminate Hli |]. exists []. split; reflexivity.
    - destruct (negb (z =? 0)%Z); [discriminate Hli |]. exists []. split; reflexivity.
    - destruct (negb (str =? "")%string); cbn [iterate].
      + exists (chars str). split; [reflexivity | apply chars_readable].
      + exists []. split; reflexivity.
    - exists l. split; [reflexivity | exact Hli].
    - discriminate Hli. }
  destruct j as [| | b | z | str | l | fs]; cbn [scannable] in Hj; try discriminate Hj;
    cbn [get]; try (exists Undefined, []; repeat split; reflexivity).
  destruct (Hitems _ Hj) as (items & Hit & Hall).
  exists (lookup "line_items" fs), items. repeat split; assumption.
Qed.

(** A scannable order is answered 200 whatever the store does: the scan ends
    with some collection [pids], and then one deletion is attempted for each
    of its members. *)
Lemma process_scannable body raw j w :
  body_toString body = Ok raw ->
  JSON_parse E raw = Some j ->
  scannable j = true ->
  exists li items pids lookups,
    get j "line_items" = Ok li /\
    iterate (or_else li (Arr [])) = Ok items /\
    for_of items scan [] w = (Ok pids, sent w lookups) /\
    process body w =
      (Ok (Send 200 "OK"), sent w (lookups ++ map (delete_request E) pids)%list).
Proof.
  intros Htext Hparse Hj.
  destruct (scannable_items j Hj) as (li & items & Hget & Hit & Hall).
  destruct (scan_items_total items Hall [] w) as (pids & lookups & Hscan).
  exists li, items, pids, lookups. repeat split; try assumption.
  unfold process_order, try_catch, bind, parse, lift, ret.
  rewrite Htext, Hparse, Hget, Hit, Hscan.
  rewrite (delete_all_total E shopifyRequest one_request), sent_sent. reflexivity.
Qed.

(** Conversely, an item that is not readable makes the scan throw, and the
    handler's [catch] answers 500. *)
Lemma is_temp_sku_unreadable sku0 :
  readable_sku sku0 = false ->
  exists e, is_temp_sku E (or_else sku0 (Str "")) = Throw e.
Proof.
  unfold or_else, is_temp_sku.
  destruct sku0 as [| | b | z | sku | l | fs]; cbn [readable_sku truthy negb];
    try discriminate; intros H.
  - destruct b; [| discriminate H]. eexists. reflexivity.
  - destruct (z =? 0)%Z eqn:Hz; cbn [negb] in H |- *; [discriminate H |].
    cbn [truthy]. rewrite Hz. eexists. reflexivity.
  - eexists. reflexivity.
  - eexists. reflexivity.
Qed.

Lemma scan_item_throws li s w :
  readable_item li = false ->
  exists e, scan li s w = (Throw e, w).
Proof.
  intros Hli. unfold scan_line_item, bind, lift.
  destruct li as [| | b | z | str | l | fs]; try discriminate Hli; cbn [get];
    try (eexists; reflexivity).
  cbn [readable_item] in Hli.
  destruct (is_temp_sku_unreadable _ Hli) as [e He]. rewrite He.
  exists e. reflexivity.
Qed.

Lemma scan_items_throw items :
  forallb readable_item items = false ->
  forall s w, exists e w', for_of items scan s w = (Throw e, w').
Proof.
  induction items as [| li items IH]; intros Hall s w; [discriminate Hall |].
  cbn [forallb] in Hall. cbn [for_of]. unfold bind.
  destruct (readable_item li) eqn:Hli.
  - destruct (scan_item_total li s w Hli) as (s1 & l1 & H1). rewrite H1.
    apply IH. exact Hall.
  - destruct (scan_item_throws li s w Hli) as (e & H1). rewrite H1.
    exists e, w. reflexivity.
Qed.

End Scanning.

(** C6, at the failing input: an order with two line items of a temporary
    product, posted to a server without a webhook secret whose store refuses
    every deletion.  The body parses as JSON, but the handler never gets to
    the deletions: it parses the text of the already parsed object, and the
    first two files answer 500 having sent nothing, where the claim says
    200. *)
Theorem webhook_order_is_answered_500 :
  let E := Fixtures.mk [] Fixtures.store_refusing_deletes (fun _ => Fixtures.millis) in
  let posted := Fixtures.txt_order_twice in
  let order := Obj [("line_items", Arr [Fixtures.line_item; Fixtures.line_item])] in
  let req := MkReq (fun _ => None) order in
  JSON_parse E posted = Some order /\
  body_toString (req_body req) = Ok "[object Object]" /\
  JSON_parse E "[object Object]" = None /\
  Part001.post_orders_create E req w0 = (Ok (Send 500 "Error"), w0) /\
  Part002a.post_orders_create E req w0 = (Ok (Send 500 "Error"), w0).
Proof. vm_compute. repeat split. Qed.

(** *** The create route without an image *)

Lemma lacks_readable body k k' :
  lacks body k -> exists v, get body k' = Ok v.
Proof.
  unfold lacks. destruct body; cbn [get]; try discriminate; intros _; eexists; reflexivity.
Qed.

Ltac open_create :=
  cbv beta delta [Part001.post_create_custom_product Part002a.post_create_custom_product
                  Part002b.post_create_custom_product bind try_catch lift ret];
  cbv zeta.

(** C7: a create request whose body has no [imageBase64] field is answered
    400 with [{success: false, message: 'imageBase64 required'}] and nothing
    is sent upstream, in each of the three files. *)
Theorem create_without_image_is_rejected :
  forall (E : env) (req : request value) (w : world),
    lacks (req_body req) "imageBase64" ->
    let failure := Json 400 (Obj [("success", Bool false);
                                  ("message", Str "imageBase64 required")]) in
    (400 <= status_of failure < 500)%Z /\
    Part001.post_create_custom_product E req w = (Ok failure, w) /\
    Part002a.post_create_custom_product E req w = (Ok failure, w) /\
    Part002b.post_create_custom_product E req w = (Ok failure, w).
Proof.
  intros E req w Hlacks failure.
  destruct (lacks_readable _ _ "title" Hlacks) as [title Htitle].
  destruct (lacks_readable _ _ "price" Hlacks) as [price Hprice].
  unfold lacks in Hlacks.
  split; [cbn; lia |].
  repeat split; open_create; rewrite Htitle, Hlacks, Hprice; reflexivity.
Qed.

Lemma create_without_image_is_rejected_witness :
  let E := Fixtures.mk [] (Fixtures.store Fixtures.txt_product_echo)
                       (fun _ => Fixtures.millis) in
  let req := MkReq (fun _ => None) (Obj [("title", Str "Custom Jersey"); ("price", Str "499.00")]) in
  let failure := Json 400 (Obj [("success", Bool false);
                                ("message", Str "imageBase64 required")]) in
  Part001.post_create_custom_product E req w0 = (Ok failure, w0) /\
  Part002a.post_create_custom_product E req w0 = (Ok failure, w0) /\
  Part002b.post_create_custom_product E req w0 = (Ok failure, w0).
Proof.
  intros E req.
  refine (proj2 (create_without_image_is_rejected E req w0 _)).
  reflexivity.
Defined.

(** *** The admin key *)

Section Sweeping.

Context (E : env).
Context (shopifyRequest : string -> string -> value -> M value).
Context (err_text : exn -> string).
Hypothesis one_request : sends_one E shopifyRequest.

(** A loop whose body only sends requests only sends requests. *)
Lemma for_of_grows {S : Type} (body : value -> S -> M S) :
  (forall x s w, exists l, snd (body x s w) = sent w l) ->
  forall items s w, exists l, snd (for_of items body s w) = sent w l.
Proof.
  intros Hbody. induction items as [| x items IH]; intros s w; cbn [for_of].
  - exists []. unfold ret. cbn [snd]. rewrite sent_nil. reflexivity.
  - unfold bind. destruct (Hbody x s w) as [l1 H1].
    destruct (body x s w) as [[s1 | e] w1]; cbn [snd] in H1; subst w1.
    + destruct (IH s1 (sent w l1)) as [l2 H2]. exists (l1 ++ l2)%list.
      rewrite H2, sent_sent. reflexivity.
    + exists l1. reflexivity.
Qed.

Lemma sweep_one_grows p deleted w :
  exists l, snd (sweep_one E shopifyRequest p deleted w) = sent w l.
Proof.
  unfold sweep_one, deleteProduct, bind, lift, try_catch, ret.
  destruct (shouldDelete E p) as [[|] | e];
    try (exists []; cbn [snd]; rewrite sent_nil; reflexivity).
  destruct (get p "id") as [id | e];
    [| exists []; cbn [snd]; rewrite sent_nil; reflexivity].
  pose proof (one_request ("products/" ++ to_str id ++ ".json") "DELETE" Null w) as Hw.
  destruct (shopifyRequest _ _ _ w) as [[v | e] w1]; cbn [snd] in Hw |- *; subst w1;
    eexists; reflexivity.
Qed.

(** A request the key check lets in starts by listing the unpublished
    products. *)
Lemma sweep_lists_products w :
  exists rest,
    snd (try_catch (sweep E shopifyRequest) (fun err => ret (server_error err_text err)) w)
    = sent w (list_request E :: rest).
Proof.
  unfold sweep, try_catch, ret. unfold bind at 1.
  pose proof (one_request "products.json?limit=250&published_status=unpublished"
                          "GET" Null w) as Hw.
  destruct (shopifyRequest _ _ _ w) as [[listRes | e] w1]; cbn [snd] in Hw; subst w1;
    [| exists []; reflexivity].
  unfold bind at 1. unfold lift at 1.
  destruct (get listRes "products") as [ps | e]; [| exists []; reflexivity].
  unfold bind at 1. unfold lift at 1.
  destruct (iterate (or_else ps (Arr []))) as [items | e]; [| exists []; reflexivity].
  unfold bind.
  destruct (for_of_grows (sweep_one E shopifyRequest) sweep_one_grows items []
              (sent w [list_request E])) as [l Hl].
  fold (list_request E) in *. fold (sent w [list_request E]) in *.
  destruct (for_of items _ [] (sent w [list_request E])) as [[deleted | e] w2];
    cbn [snd] in Hl |- *; subst w2; rewrite sent_sent; exists l; reflexivity.
Qed.

End Sweeping.

(** C9: with no admin key configured the admin route runs the sweep for
    every request, starting with the listing of unpublished products; with a
    key configured, a request whose [x-admin-key] header is missing or
    different is answered 401 [Unauthorized] and nothing is sent upstream.
    Holds for the first two files. *)
Theorem admin_key_gate :
  forall (E : env) (req : request value) (w : world),
    (ADMIN_KEY E = "" ->
       (Part001.post_cleanup_temp_products E req w =
          try_catch (sweep E (Part001.shopifyRequest E))
                    (fun err => ret (server_error message_or_String err)) w /\
        exists rest,
          snd (Part001.post_cleanup_temp_products E req w) =
          sent w (list_request E :: rest)) /\
       (Part002a.post_cleanup_temp_products E req w =
          try_catch (sweep E (Part002a.shopifyRequest E))
                    (fun err => ret (server_error message_or_String err)) w /\
        exists rest,
          snd (Part002a.post_cleanup_temp_products E req w) =
          sent w (list_request E :: rest))) /\
    (ADMIN_KEY E <> "" ->
       req_get req "x-admin-key" <> Some (ADMIN_KEY E) ->
       let denied := Json 401 (Obj [("success", Bool false); ("message", Str "Unauthorized")]) in
       Part001.post_cleanup_temp_products E req w = (Ok denied, w) /\
       Part002a.post_cleanup_temp_products E req w = (Ok denied, w)).
Proof.
  intros E req w.
  split.
  - intros Hno.
    assert (forall sr, cleanup_temp_products E sr message_or_String req w =
                       try_catch (sweep E sr)
                                 (fun err => ret (server_error message_or_String err)) w)
      as Hrun.
    { intros sr. unfold cleanup_temp_products, try_catch, admin_denied.
      rewrite Hno. reflexivity. }
    unfold Part001.post_cleanup_temp_products, Part002a.post_cleanup_temp_products.
    rewrite !Hrun.
    split; (split; [reflexivity |]).
    + apply sweep_lists_products, sends_one_Part001.
    + apply sweep_lists_products, sends_one_Part002a.
  - intros Hkey Hhdr. cbv zeta.
    unfold Part001.post_cleanup_temp_products, Part002a.post_cleanup_temp_products,
      cleanup_temp_products, try_catch, admin_denied.
    destruct (String.eqb_spec (ADMIN_KEY E) ""); [contradiction |].
    cbn [negb andb].
    destruct (req_get req "x-admin-key") as [k |].
    + destruct (String.eqb_spec k (ADMIN_KEY E)); [subst k; contradiction |].
      split; reflexivity.
    + split; reflexivity.
Qed.

Lemma admin_key_gate_witness :
  let open := Fixtures.mk [] Fixtures.catalogue (fun _ => Fixtures.millis) in
  let locked := Fixtures.mk [("ADMIN_KEY", "some-admin-secret")] Fixtures.catalogue
                            (fun _ => Fixtures.millis) in
  let anonymous := MkReq (fun _ => None) (Obj []) in
  let denied := Json 401 (Obj [("success", Bool false); ("message", Str "Unauthorized")]) in
  (exists rest,
     snd (Part001.post_cleanup_temp_products open anonymous w0) =
     sent w0 (list_request open :: rest)) /\
  Part001.post_cleanup_temp_products locked anonymous w0 = (Ok denied, w0) /\
  Part002a.post_cleanup_temp_products locked anonymous w0 = (Ok denied, w0).
Proof.
  intros open locked anonymous denied.
  split.
  - apply (proj1 (admin_key_gate open anonymous w0)). reflexivity.
  - apply (proj2 (admin_key_gate locked anonymous w0)).
    + vm_compute. discriminate.
    + vm_compute. discriminate.
Defined.

(** The sweep on a store with a temporary product, 7, and a regular one, 8. *)
Example sweep_deletes_temporary_products :
  let E := Fixtures.mk [] Fixtures.catalogue (fun _ => Fixtures.millis) in
  Part001.post_cleanup_temp_products E (MkReq (fun _ => None) (Obj [])) w0 =
    (Ok (Json 200 (Obj [("success", Bool true); ("deletedCount", Num 1);
                        ("deleted", Arr [Num 7])])),
     sent w0 [list_request E; delete_request E (Num 7)]).
Proof. vm_compute. reflexivity. Qed.

(** *** Stripping the data-URI prefix *)

Lemma strip_prefix_app p s : strip_prefix p (p ++ s) = Some s.
Proof.
  induction p as [| c p IH]; cbn [append strip_prefix]; [reflexivity |].
  rewrite Ascii.eqb_refl. exact IH.
Qed.

Lemma skip_letters_app subtype rest :
  letters subtype = true ->
  skip_letters (subtype ++ ";" ++ rest) = (String.length subtype, ";" ++ rest).
Proof.
  induction subtype as [| c subtype IH]; intros Hl.
  - reflexivity.
  - cbn [letters] in Hl. apply andb_prop in Hl as [Hc Hrest].
    cbn [append skip_letters String.length]. rewrite Hc.
    change (subtype ++ String ";" rest) with (subtype ++ ";" ++ rest).
    rewrite (IH Hrest). reflexivity.
Qed.

(** The pattern removes [data:image/<letters>;base64,] and nothing else. *)
Lemma strip_data_uri_image subtype data :
  letters subtype = true ->
  subtype <> "" ->
  strip_data_uri ("data:image/" ++ subtype ++ ";base64," ++ data) = data.
Proof.
  intros Hl Hne. unfold strip_data_uri.
  rewrite strip_prefix_app.
  change (subtype ++ ";base64," ++ data) with (subtype ++ ";" ++ ("base64," ++ data)).
  rewrite (skip_letters_app _ _ Hl).
  destruct subtype as [| c subtype]; [contradiction Hne; reflexivity |].
  cbn [String.length].
  change (";" ++ "base64," ++ data) with (";base64," ++ data).
  rewrite strip_prefix_app. reflexivity.
Qed.

(** *** Reading a successful run backwards *)

Lemma bind_Ok {A B} (m : M A) (k : A -> M B) w b w' :
  bind m k w = (Ok b, w') ->
  exists a w1, m w = (Ok a, w1) /\ k a w1 = (Ok b, w').
Proof.
  unfold bind. destruct (m w) as [[a | e] w1]; intros H; [| discriminate H].
  exists a, w1. split; [reflexivity | exact H].
Qed.

Lemma lift_Ok {A} (o : outcome A) w a w' :
  lift o w = (Ok a, w') -> o = Ok a /\ w' = w.
Proof. unfold lift. intros H. inversion H. split; reflexivity. Qed.

Lemma ret_Ok {A} (x : A) w a w' :
  ret x w = (Ok a, w') -> a = x /\ w' = w.
Proof. unfold ret. intros H. inversion H. split; reflexivity. Qed.

Lemma now_Ok E w stamp w' :
  now E w = (Ok stamp, w') ->
  stamp = Date_now E (ticks w) /\ w' = MkWorld (calls w) (S (ticks w)).
Proof. unfold now. intros H. inversion H. split; reflexivity. Qed.

Lemma shopifyRequest_Part001_Ok E path method body w v w' :
  Part001.shopifyRequest E path method body w = (Ok v, w') ->
  answered E (calls w) (request_opts E path method body) v /\
  w' = sent w [request_opts E path method body].
Proof.
  cbv beta delta [Part001.shopifyRequest bind fetch throw ret]. unfold answered.
  destruct (upstream E (calls w) _) as [e | st stt txt] eqn:Hup; [discriminate |].
  cbv beta iota zeta.
  destruct (res_ok st) eqn:Hok; cbn [negb]; [| discriminate].
  destruct (JSON_parse E txt) as [v0 |] eqn:Hparse; [| discriminate].
  intros H. inversion H. subst. split; [| reflexivity].
  exists st, stt, txt. repeat split; assumption.
Qed.

Lemma shopifyRequest_Part002a_Ok E path method body w v w' :
  Part002a.shopifyRequest E path method body w = (Ok v, w') ->
  answered E (calls w) (request_opts E path method body) v /\
  w' = sent w [request_opts E path method body].
Proof.
  cbv beta delta [Part002a.shopifyRequest bind fetch throw ret]. unfold answered.
  destruct (upstream E (calls w) _) as [e | st stt txt] eqn:Hup; [discriminate |].
  cbv beta iota zeta.
  destruct (res_ok st) eqn:Hok; cbn [negb]; [| discriminate].
  destruct (JSON_parse E txt) as [v0 |] eqn:Hparse; [| discriminate].
  intros H. inversion H. subst. split; [| reflexivity].
  exists st, stt, txt. repeat split; assumption.
Qed.

Ltac backwards :=
  repeat match goal with
  | H : bind _ _ _ = (Ok _, _) |- _ =>
      apply bind_Ok in H; destruct H as (? & ? & ? & H)
  | H : lift _ _ = (Ok _, _) |- _ => apply lift_Ok in H; destruct H as [H ?]; subst
  | H : ret _ _ = (Ok _, _) |- _ => apply ret_Ok in H; destruct H as [? ?]; subst
  | H : now _ _ = (Ok _, _) |- _ => apply now_Ok in H; destruct H as [? ?]; subst
  | H : throw _ _ = (Ok _, _) |- _ => discriminate H
  | H : (if negb ?b then _ else _) _ = (Ok _, _) |- _ =>
      let Hb := fresh "Hb" in destruct b eqn:Hb; cbn [negb] in H
  end.

(** The product the create helper returns is the one upstream sent back for
    the creation request, and that request is the only thing the helper
    sends. *)
Lemma createHidden_Part001_Ok E title image price w product w' :
  Part001.createHiddenProductWithImage E title image price w = (Ok product, w') ->
  let c := request_opts E "products.json" "POST"
             (Part001.product_payload E (default_to title (Str "Custom Jersey")) image
                (default_to price (Str "499.00")) (Date_now E (ticks w))) in
  w' = MkWorld (calls w ++ [c]) (S (ticks w)) /\
  exists data, answered E (calls w) c data /\ get data "product" = Ok product.
Proof.
  unfold Part001.createHiddenProductWithImage. intros H. backwards.
  match goal with
  | Hsr : Part001.shopifyRequest _ _ _ _ _ = _ |- _ =>
      apply shopifyRequest_Part001_Ok in Hsr as [Hans Hw]
  end.
  subst. cbv zeta. split; [reflexivity |].
  eexists. split; [exact Hans | assumption].
Qed.

Lemma createHidden_Part002a_Ok E title fileUrl price w product w' :
  Part002a.createHiddenProductWithImage E title fileUrl price w = (Ok product, w') ->
  let c := request_opts E "products.json" "POST"
             (Part002a.product_payload E (default_to title (Str "Custom Jersey")) fileUrl
                (default_to price (Str "499.00")) (Date_now E (ticks w))) in
  w' = MkWorld (calls w ++ [c]) (S (ticks w)) /\
  exists data, answered E (calls w) c data /\ get data "product" = Ok product.
Proof.
  unfold Part002a.createHiddenProductWithImage. intros H. backwards.
  match goal with
  | Hsr : Part002a.shopifyRequest _ _ _ _ _ = _ |- _ =>
      apply shopifyRequest_Part002a_Ok in Hsr as [Hans Hw]
  end.
  subst. cbv zeta. split; [reflexivity |].
  eexists. split; [exact Hans | assumption].
Qed.

(** *** The SKU of a created product *)

Lemma starts_with_app p s : starts_with (p ++ s) p = true.
Proof. unfold starts_with. rewrite strip_prefix_app. reflexivity. Qed.

Lemma generated_sku_prefix E stamp :
  starts_with (generated_sku E stamp) (TEMP_SKU_PREFIX E) = true.
Proof. apply starts_with_app. Qed.

Lemma sku_sent_Part001 E title image price stamp :
  sku_sent (request_opts E "products.json" "POST"
              (Part001.product_payload E title image price stamp)) =
  Str (generated_sku E stamp).
Proof. reflexivity. Qed.

Lemma sku_sent_Part002a E title fileUrl price stamp :
  sku_sent (request_opts E "products.json" "POST"
              (Part002a.product_payload E title fileUrl price stamp)) =
  Str (generated_sku E stamp).
Proof. reflexivity. Qed.

Lemma try_catch_reply {A} (m : M A) (f : exn -> A) w a w' :
  try_catch m (fun e => ret (f e)) w = (Ok a, w') ->
  m w = (Ok a, w') \/ exists e, m w = (Throw e, w') /\ a = f e.
Proof.
  unfold try_catch, ret. destruct (m w) as [[x | e] w1]; intros H; inversion H; subst.
  - left. reflexivity.
  - right. exists e. split; reflexivity.
Qed.

Ltac backwards' :=
  repeat first
    [ progress backwards
    | match goal with
      | H : and_then _ _ _ = (Ok _, _) |- _ => unfold and_then in H
      | H : (if ?b then _ else _) _ = (Ok _, _) |- _ =>
          let Hb := fresh "Hb" in destruct b eqn:Hb
      end ].

Lemma first_variant_sku_Str product s :
  first_variant_sku product = Str s ->
  exists fs v rest fs',
    product = Obj fs /\ lookup "variants" fs = Arr (v :: rest) /\
    v = Obj fs' /\ lookup "sku" fs' = Str s.
Proof.
  unfold first_variant_sku, field, first.
  destruct product as [| | | | | | fs]; try discriminate.
  destruct (lookup "variants" fs) as [| | | | | [| v rest] |] eqn:Hv; try discriminate.
  destruct v as [| | | | | | fs']; try discriminate.
  intros H. exists fs, (Obj fs'), rest, fs'. repeat split; assumption.
Qed.

(** On a product whose first variant carries a string SKU, the two readings
    of that SKU agree. *)
Lemma sku_of_first_variant product s :
  first_variant_sku product = Str s -> sku_of (first_variant product) = Str s.
Proof.
  intros H.
  apply first_variant_sku_Str in H as (fs & v & rest & fs' & -> & Hvs & -> & Hsku).
  unfold sku_of, first_variant. cbn [field]. rewrite Hvs.
  cbn [truthy get_index nth or_else field]. exact Hsku.
Qed.

Lemma get_Ok_field v k x : get v k = Ok x -> x = field k v.
Proof.
  destruct v; cbn [get field]; intros H; try discriminate H; injection H as <-; reflexivity.
Qed.

Lemma or_else_Null_falsy v : truthy (or_else v Null) = false -> or_else v Null = Null.
Proof. unfold or_else. destruct (truthy v) eqn:Hv; [congruence | reflexivity]. Qed.

Lemma or_else_Null_truthy v : truthy (or_else v Null) = true -> truthy v = true.
Proof. unfold or_else. destruct (truthy v) eqn:Hv; [reflexivity | discriminate]. Qed.

(** Closes the goal about the [sku] of the reply once the run has been read
    backwards: whichever way the route's [&&] and [||] went, the reply
    carries the SKU of the first variant of the returned product. *)
Ltac reply_sku :=
  repeat match goal with
         | H : Json _ _ = Json _ _ |- _ => injection H as H; subst
         | H : get _ _ = Ok _ |- _ => apply get_Ok_field in H; subst
         end;
  cbn [field lookup String.eqb Ascii.eqb Bool.eqb];
  unfold sku_of, first_variant; cbv zeta;
  repeat match goal with
         | H : truthy ?v = _ |- context [truthy ?v] => rewrite H
         | H : get_index ?v 0 = Ok _ |- context [get_index ?v 0] => rewrite H
         end;
  try reflexivity;
  try match goal with
      | H : truthy (or_else ?v Null) = false |- _ =>
          rewrite (or_else_Null_falsy v H) in *; try reflexivity
      end;
  try match goal with
      | H : truthy (or_else ?v Null) = true, H' : truthy ?v = false |- _ =>
          apply or_else_Null_truthy in H; congruence
      end.

Lemma created_sku_Part001 E req w payload w' :
  Part001.post_create_custom_product E req w = (Ok (Json 200 payload), w') ->
  exists c product,
    calls w' = (calls w ++ [c])%list /\
    sku_sent c = Str (generated_sku E (Date_now E (ticks w))) /\
    (exists data, answered E (calls w) c data /\ get data "product" = Ok product) /\
    field "sku" payload = sku_of (first_variant product).
Proof.
  unfold Part001.post_create_custom_product. intros H.
  apply try_catch_reply in H as [H | (e & _ & He)]; [| discriminate He].
  backwards'; try discriminate.
  all: match goal with
       | Hc : Part001.createHiddenProductWithImage _ _ _ _ _ = (Ok ?p, _) |- _ =>
           apply createHidden_Part001_Ok in Hc as [Hw (data & Hans & Hprod)];
           eexists; exists p; subst
       end.
  all: split; [reflexivity |]; split; [apply sku_sent_Part001 |];
       split; [exists data; split; assumption |].
  all: clear Hans Hprod.
  all: reply_sku.
Qed.

Lemma uploadFile_Part002a_Ok E base64 filename w fileUrl w' :
  Part002a.uploadFileToShopify E base64 filename w = (Ok fileUrl, w') ->
  w' = sent w [request_opts E "files.json" "POST"
                 (Obj [("file", Obj [("attachment", base64); ("filename", filename)])])].
Proof.
  unfold Part002a.uploadFileToShopify. intros H. backwards'.
  match goal with
  | Hsr : Part002a.shopifyRequest _ _ _ _ _ = _ |- _ =>
      apply shopifyRequest_Part002a_Ok in Hsr as [_ Hw]
  end.
  exact Hw.
Qed.

Lemma created_sku_Part002a E req w payload w' :
  Part002a.post_create_custom_product E req w = (Ok (Json 200 payload), w') ->
  exists before c product,
    calls w' = (before ++ [c])%list /\
    sku_sent c = Str (generated_sku E (Date_now E (S (ticks w)))) /\
    (exists data, answered E before c data /\ get data "product" = Ok product) /\
    field "sku" payload = sku_of (first_variant product).
Proof.
  unfold Part002a.post_create_custom_product. intros H.
  apply try_catch_reply in H as [H | (e & _ & He)]; [| discriminate He].
  backwards'; try discriminate.
  all: match goal with
       | Hu : Part002a.uploadFileToShopify _ _ _ _ = _ |- _ =>
           apply uploadFile_Part002a_Ok in Hu; subst
       end.
  all: match goal with
       | Hc : Part002a.createHiddenProductWithImage _ _ _ _ _ = (Ok ?p, _) |- _ =>
           apply createHidden_Part002a_Ok in Hc as [Hw (data & Hans & Hprod)];
           eexists; eexists; exists p; subst
       end.
  all: split; [reflexivity |]; split; [apply sku_sent_Part002a |];
       split; [exists data; split; assumption |].
  all: clear Hans Hprod.
  all: reply_sku.
Qed.

(** C8, as the code has it: when a create request succeeds, the SKU carried
    by the product-creation request starts with the configured prefix, and
    the reply's [sku] is the SKU of the first variant of the product
    upstream returned, [null] when that product has no first variant; it is
    the generated SKU, and so starts with the prefix, whenever that product
    carries the generated SKU on its first variant.  Holds for the first two
    files. *)
Theorem created_sku_starts_with_prefix :
  forall (E : env) (req : request value) (w : world) (payload : value) (w' : world),
    Part001.post_create_custom_product E req w = (Ok (Json 200 payload), w') \/
    Part002a.post_create_custom_product E req w = (Ok (Json 200 payload), w') ->
    exists before c sku product,
      calls w' = (before ++ [c])%list /\
      sku_sent c = Str sku /\
      starts_with sku (TEMP_SKU_PREFIX E) = true /\
      (exists data, answered E before c data /\ get data "product" = Ok product) /\
      field "sku" payload = sku_of (first_variant product) /\
      (first_variant_sku product = Str sku ->
       field "sku" payload = Str sku).
Proof.
  intros E req w payload w' [H | H].
  - apply created_sku_Part001 in H as (c & product & Hcalls & Hsent & Hans & Hecho).
    exists (calls w), c, (generated_sku E (Date_now E (ticks w))), product.
    repeat split; try assumption; [apply generated_sku_prefix |].
    intros Hsame. rewrite Hecho. apply sku_of_first_variant. exact Hsame.
  - apply created_sku_Part002a in H as (before & c & product & Hcalls & Hsent & Hans & Hecho).
    exists before, c, (generated_sku E (Date_now E (S (ticks w)))), product.
    repeat split; try assumption; [apply generated_sku_prefix |].
    intros Hsame. rewrite Hecho. apply sku_of_first_variant. exact Hsame.
Qed.

Lemma created_sku_starts_with_prefix_witness :
  let E := Fixtures.mk [] (Fixtures.store Fixtures.txt_product_echo)
                       (fun _ => Fixtures.millis) in
  let req := MkReq (fun _ => None) (Obj [("imageBase64", Str "AAAA")]) in
  let payload :=
    Obj [("success", Bool true); ("productId", Num 7); ("variantId", Num 11);
         ("sku", Str "CUST-1700000000000"); ("image", Null);
         ("product", Obj [("id", Num 7);
                          ("variants", Arr [Obj [("id", Num 11);
                                                 ("sku", Str "CUST-1700000000000")]])])] in
  exists before c sku product,
    calls (snd (Part001.post_create_custom_product E req w0)) = (before ++ [c])%list /\
    sku_sent c = Str sku /\
    starts_with sku (TEMP_SKU_PREFIX E) = true /\
    (exists data, answered E before c data /\ get data "product" = Ok product) /\
    field "sku" payload = sku_of (first_variant product) /\
    (first_variant_sku product = Str sku -> field "sku" payload = Str sku).
Proof.
  intros E req payload.
  apply (created_sku_starts_with_prefix E req w0).
  left. vm_compute. reflexivity.
Defined.

(** C8, as stated, fails: the store returns a product whose variant has
    another SKU, the request succeeds, and the [sku] of the reply does not
    start with the prefix. *)
Lemma created_sku_is_the_one_upstream_returns :
  let E := Fixtures.mk [] (Fixtures.store Fixtures.txt_product_other_sku)
                       (fun _ => Fixtures.millis) in
  let req := MkReq (fun _ => None) (Obj [("imageBase64", Str "AAAA")]) in
  TEMP_SKU_PREFIX E = "CUST-" /\
  (exists payload w',
     Part001.post_create_custom_product E req w0 = (Ok (Json 200 payload), w') /\
     field "success" payload = Bool true /\
     field "sku" payload = Str "OTHER") /\
  (exists payload w',
     Part002a.post_create_custom_product E req w0 = (Ok (Json 200 payload), w') /\
     field "success" payload = Bool true /\
     field "sku" payload = Str "OTHER") /\
  starts_with "OTHER" "CUST-" = false.
Proof.
  cbv zeta. split; [reflexivity |]. split; [| split; [| reflexivity]].
  - eexists. eexists. split; [vm_compute; reflexivity |]. split; reflexivity.
  - eexists. eexists. split; [vm_compute; reflexivity |]. split; reflexivity.
Qed.

(** *** The image a create request hands upstream *)

Lemma createHidden_world_Part001 E title image price w :
  snd (Part001.createHiddenProductWithImage E title image price w) =
  MkWorld (calls w ++ [request_opts E "products.json" "POST"
                         (Part001.product_payload E (default_to title (Str "Custom Jersey"))
                            image (default_to price (Str "499.00"))
                            (Date_now E (ticks w)))])
          (S (ticks w)).
Proof.
  unfold Part001.createHiddenProductWithImage, bind, now, lift, throw, ret. cbv zeta.
  match goal with
  | |- context [Part001.shopifyRequest E ?p ?m ?b ?w1] =>
      pose proof (sends_one_Part001 E p m b w1) as Hw;
      destruct (Part001.shopifyRequest E p m b w1) as [[data | e] w2]
  end; cbn [snd calls ticks] in Hw; subst w2; [| reflexivity].
  destruct (truthy data); cbn [negb]; [| reflexivity].
  destruct (get data "product") as [product | e]; [| reflexivity].
  destruct (truthy product); reflexivity.
Qed.

Ltac pure_tail :=
  cbv beta delta [and_then bind lift ret];
  repeat (cbv beta iota zeta;
          match goal with
          | |- context [match get ?v ?k with _ => _ end] => destruct (get v k)
          | |- context [match get_index ?v ?k with _ => _ end] => destruct (get_index v k)
          | |- context [if truthy ?v then _ else _] => destruct (truthy v)
          end);
  cbv beta iota zeta.

(** The first file sends one request per create request that carries a
    non-empty string image: the product creation, whose attachment is the
    image with the pattern removed. *)
Lemma create_calls_Part001 E req w title raw price :
  get (req_body req) "title" = Ok title ->
  get (req_body req) "imageBase64" = Ok (Str raw) ->
  raw <> "" ->
  get (req_body req) "price" = Ok price ->
  calls (snd (Part001.post_create_custom_product E req w)) =
  (calls w ++ [request_opts E "products.json" "POST"
                 (Part001.product_payload E
                    (default_to (default_to title (Str "Custom Jersey")) (Str "Custom Jersey"))
                    (Str (strip_data_uri raw))
                    (default_to price (Str "499.00"))
                    (Date_now E (ticks w)))])%list.
Proof.
  intros Ht Hi Hraw Hp.
  unfold Part001.post_create_custom_product, try_catch.
  unfold bind at 1. unfold lift at 1. rewrite Ht.
  unfold bind at 1. unfold lift at 1. rewrite Hi.
  unfold bind at 1. unfold lift at 1. rewrite Hp.
  cbn [truthy]. destruct (String.eqb_spec raw ""); [contradiction |]. cbn [negb].
  unfold bind at 1. unfold lift at 1. cbn [Part001.replace_data_uri].
  unfold bind at 1.
  pose proof (createHidden_world_Part001 E (default_to title (Str "Custom Jersey"))
                (Str (strip_data_uri raw)) price w) as Hw.
  destruct (Part001.createHiddenProductWithImage E _ _ _ w) as [[product | e] w1];
    cbn [snd] in Hw; subst w1; [| reflexivity].
  pure_tail; reflexivity.
Qed.

Lemma get_readable body k v k' :
  get body k = Ok v -> exists v', get body k' = Ok v'.
Proof.
  destruct body; cbn [get]; try discriminate; intros _; eexists; reflexivity.
Qed.




(** *** Uniqueness of generated SKUs *)

Lemma to_int_nonnil z : Z.to_int z <> Pos Nil /\ Z.to_int z <> Neg Nil.
Proof.
  destruct z as [| p | p]; cbn [Z.to_int]; split; try discriminate;
    intros H; injection H as H; exact (DecimalPos.Unsigned.to_uint_nonnil p H).
Qed.

(** The decimal rendering of a number determines it. *)
Lemma string_of_Z_inj a b : string_of_Z a = string_of_Z b -> a = b.
Proof.
  unfold string_of_Z. intros H.
  apply DecimalZ.to_int_inj.
  destruct (to_int_nonnil a) as [Ha1 Ha2]. destruct (to_int_nonnil b) as [Hb1 Hb2].
  pose proof (NilZero.isi (Z.to_int a) Ha1 Ha2) as Ia.
  pose proof (NilZero.isi (Z.to_int b) Hb1 Hb2) as Ib.
  rewrite H in Ia. rewrite Ia in Ib. injection Ib as Ib. exact Ib.
Qed.

Lemma append_cancel p a b : p ++ a = p ++ b -> a = b.
Proof.
  induction p as [| c p IH]; cbn [append]; intros H; [exact H |].
  injection H as H. exact (IH H).
Qed.

(** Two generated SKUs are the same exactly when they were generated at the
    same clock reading. *)
Lemma generated_sku_inj E s t : generated_sku E s = generated_sku E t <-> s = t.
Proof.
  unfold generated_sku. split.
  - intros H. apply string_of_Z_inj. exact (append_cancel _ _ _ H).
  - intros ->. reflexivity.
Qed.

Lemma createHidden_world_Part002a E title fileUrl price w :
  snd (Part002a.createHiddenProductWithImage E title fileUrl price w) =
  MkWorld (calls w ++ [request_opts E "products.json" "POST"
                         (Part002a.product_payload E (default_to title (Str "Custom Jersey"))
                            fileUrl (default_to price (Str "499.00"))
                            (Date_now E (ticks w)))])
          (S (ticks w)).
Proof.
  unfold Part002a.createHiddenProductWithImage, bind, now, lift, throw, ret. cbv zeta.
  match goal with
  | |- context [Part002a.shopifyRequest E ?p ?m ?b ?w1] =>
      pose proof (sends_one_Part002a E p m b w1) as Hw;
      destruct (Part002a.shopifyRequest E p m b w1) as [[data | e] w2]
  end; cbn [snd calls ticks] in Hw; subst w2; [| reflexivity].
  destruct (truthy data); cbn [negb]; [| reflexivity].
  destruct (get data "product") as [product | e]; [| reflexivity].
  destruct (truthy product); reflexivity.
Qed.

Lemma last_sku_snoc cs n c : last_sku (MkWorld (cs ++ [c]) n) = sku_sent c.
Proof. unfold last_sku. cbn [calls]. rewrite List.rev_app_distr. reflexivity. Qed.



(** *** One deletion per product *)

Lemma same_value_zero_sym a b : same_value_zero a b = same_value_zero b a.
Proof.
  destruct a, b; cbn [same_value_zero]; try reflexivity.
  - destruct b, b0; reflexivity.
  - apply Z.eqb_sym.
  - apply String.eqb_sym.
Qed.

Lemma distinct_snoc s x :
  distinct s -> existsb (same_value_zero x) s = false -> distinct (s ++ [x]).
Proof.
  induction s as [| a s IH]; cbn [distinct existsb app]; intros Hs Hx.
  - split; [reflexivity | exact I].
  - destruct Hs as [Ha Hs]. apply orb_false_elim in Hx as [Hxa Hx].
    split; [| exact (IH Hs Hx)].
    rewrite existsb_app, Ha. cbn [existsb].
    rewrite same_value_zero_sym, Hxa. reflexivity.
Qed.

Lemma Set_add_distinct x s : distinct s -> distinct (Set_add x s).
Proof.
  intros Hs. unfold Set_add.
  destruct (existsb (same_value_zero x) s) eqn:Hx; [exact Hs |].
  apply distinct_snoc; assumption.
Qed.

Lemma numeric_ids_In z s :
  In z (numeric_ids s) -> existsb (same_value_zero (Num z)) s = true.
Proof.
  induction s as [| a s IH]; cbn [numeric_ids flat_map existsb]; [intros [] |].
  intros H. apply in_app_or in H as [H | H].
  - destruct a; cbn [In] in H; try contradiction.
    destruct H as [-> | []]. cbn [same_value_zero]. rewrite Z.eqb_refl. reflexivity.
  - rewrite (IH H). apply orb_true_r.
Qed.

(** Among distinct members no number occurs twice. *)
Lemma distinct_numeric_ids s : distinct s -> NoDup (numeric_ids s).
Proof.
  induction s as [| a s IH]; cbn [distinct]; [intros _; constructor |].
  intros [Ha Hs]. specialize (IH Hs).
  destruct a; try exact IH.
  change (numeric_ids (Num z :: s)) with (z :: numeric_ids s).
  constructor; [| exact IH].
  intros Hin. apply numeric_ids_In in Hin. congruence.
Qed.

Section Deduplication.

Context (E : env).
Context (shopifyRequest : string -> string -> value -> M value).

Local Abbreviation scan := (scan_line_item E shopifyRequest Set_add).

Lemma scan_item_distinct li s w s' w' :
  scan li s w = (Ok s', w') -> distinct s -> distinct s'.
Proof.
  unfold scan_line_item. intros H Hs.
  backwards'; try assumption.
  apply try_catch_reply in H as [H | (e & _ & ->)]; [| assumption].
  backwards'; try assumption.
  apply Set_add_distinct. assumption.
Qed.

Lemma scan_items_distinct items :
  forall s w s' w',
    for_of items scan s w = (Ok s', w') -> distinct s -> distinct s'.
Proof.
  induction items as [| li items IH]; intros s w s' w' H Hs; cbn [for_of] in H.
  - apply ret_Ok in H as [-> _]. exact Hs.
  - apply bind_Ok in H as (s1 & w1 & H1 & H2).
    exact (IH _ _ _ _ H2 (scan_item_distinct _ _ _ _ _ H1 Hs)).
Qed.

End Deduplication.



(** C1, at the failing input: an order with two line items that resolve to
    product 7, posted to a server without a webhook secret.  The handler
    reads [req.body.toString('utf8')] of the parsed order, [JSON.parse]
    rejects the text [[object Object]], and each of the three files answers
    500 without a look-up or a deletion, where the claim says one
    deletion. *)
Theorem webhook_order_with_repeated_product_sends_no_deletion :
  let E := Fixtures.mk [] (Fixtures.store Fixtures.txt_empty_object)
                       (fun _ => Fixtures.millis) in
  let posted := Fixtures.txt_order_twice in
  let order := Obj [("line_items", Arr [Fixtures.line_item; Fixtures.line_item])] in
  let req := MkReq (fun _ => None) order in
  JSON_parse E posted = Some order /\
  body_toString (req_body req) = Ok "[object Object]" /\
  JSON_parse E "[object Object]" = None /\
  Part001.post_orders_create E req w0 = (Ok (Send 500 "Error"), w0) /\
  Part002a.post_orders_create E req w0 = (Ok (Send 500 "Error"), w0) /\
  Part002b.post_orders_create E req w0 = (Ok (Send 500 "Error"), w0).
Proof. vm_compute. repeat split. Qed.

(* ================================================================== *)
(** ** Further properties of the code *)

(** *** The upstream helper *)

(** X1: a call of [shopifyRequest] sends exactly one request, the one built
    from its arguments, and leaves the clock alone, whether upstream rejects
    the request, answers with an error status or returns text that does not
    parse.  Holds for the three files. *)
Theorem shopifyRequest_sends_one_request :
  forall (E : env) (path method : string) (body : value) (w : world),
    snd (Part001.shopifyRequest E path method body w) =
      sent w [request_opts E path method body] /\
    snd (Part002a.shopifyRequest E path method body w) =
      sent w [request_opts E path method body] /\
    snd (Part002b.shopifyRequest E path method body w) =
      sent w [request_opts E path method body].
Proof.
  intros E path method body w. repeat split.
  - apply sends_one_Part001.
  - apply sends_one_Part002a.
  - apply sends_one_Part002b.
Qed.

Lemma reads_reply_Part001 E : reads_reply E (Part001.shopifyRequest E).
Proof.
  intros path method body w v w' H.
  apply shopifyRequest_Part001_Ok in H as [(st & stt & txt & Hup & _ & Hp) _].
  exists st, stt, txt. split; assumption.
Qed.

Lemma reads_reply_Part002a E : reads_reply E (Part002a.shopifyRequest E).
Proof.
  intros path method body w v w' H.
  apply shopifyRequest_Part002a_Ok in H as [(st & stt & txt & Hup & _ & Hp) _].
  exists st, stt, txt. split; assumption.
Qed.

Lemma reads_reply_Part002b E : reads_reply E (Part002b.shopifyRequest E).
Proof.
  intros path method body w v w'.
  cbv beta delta [Part002b.shopifyRequest bind fetch throw ret].
  destruct (upstream E (calls w) _) as [e | st stt txt] eqn:Hup; [discriminate |].
  cbv beta iota zeta.
  destruct (JSON_parse E txt) as [v0 |] eqn:Hp; [| discriminate].
  intros H. inversion H. subst. exists st, stt, txt. split; assumption.
Qed.

(** *** What the webhook asks upstream *)

Lemma get_field v k : v <> Undefined -> v <> Null -> get v k = Ok (field k v).
Proof. destruct v; cbn [get field]; intros H1 H2; try reflexivity; contradiction. Qed.

Lemma readable_item_get li k : readable_item li = true -> get li k = Ok (field k li).
Proof. intros H. apply get_field; intros ->; discriminate H. Qed.

Lemma wanted_cons E li items :
  wanted E (li :: items) = (wanted E [li] ++ wanted E items)%list.
Proof. unfold wanted. cbn [flat_map]. rewrite app_nil_r. reflexivity. Qed.

Lemma is_temp_sku_temp E sku0 :
  readable_sku sku0 = true ->
  is_temp_sku E (or_else sku0 (Str "")) = Ok (temp_sku E sku0).
Proof.
  unfold or_else, is_temp_sku, temp_sku.
  destruct sku0 as [| | b | z | sku | l | fs]; cbn [readable_sku truthy negb];
    try discriminate; intros H; try reflexivity.
  - destruct b; [discriminate H | reflexivity].
  - destruct (z =? 0)%Z; cbn [negb] in H |- *; [reflexivity | discriminate H].
  - destruct (sku =? "")%string eqn:Hs; cbn [negb truthy andb].
    + reflexivity.
    + rewrite Hs. reflexivity.
Qed.

Section Lookups.

Context (E : env).
Context (shopifyRequest : string -> string -> value -> M value).
Context (collect : value -> list value -> list value).
Hypothesis one_request : sends_one E shopifyRequest.
Hypothesis reads : reads_reply E shopifyRequest.
Hypothesis collect_In : forall x p s, In x (collect p s) -> x = p \/ In x s.

Local Abbreviation scan := (scan_line_item E shopifyRequest collect).
Local Abbreviation process := (process_order E shopifyRequest collect).

(** Reading one readable item sends the look-up of its variant when it has a
    temporary SKU and a variant reference, and nothing otherwise; what it
    adds to the collection, upstream named as the variant's product. *)
Lemma scan_item_lookup li s w :
  readable_item li = true ->
  exists s',
    scan li s w = (Ok s', sent w (map (lookup_request E) (wanted E [li]))) /\
    (forall pid, In pid s' -> In pid s \/ resolved E (calls w) li pid).
Proof.
  intros Hli.
  assert (readable_sku (field "sku" li) = true) as Hsku.
  { destruct li; try discriminate Hli; try reflexivity. exact Hli. }
  unfold scan_line_item, bind, lift, try_catch, ret.
  rewrite (readable_item_get li "sku" Hli), (is_temp_sku_temp E _ Hsku).
  unfold wanted. cbn [flat_map]. rewrite app_nil_r. unfold temp_variant.
  destruct (temp_sku E (field "sku" li)) eqn:Htemp;
    [| exists s; cbn [map]; rewrite sent_nil; split; [reflexivity | auto]].
  rewrite (readable_item_get li "variant_id" Hli).
  destruct (truthy (field "variant_id" li)) eqn:Hvid;
    [| exists s; cbn [map]; rewrite sent_nil; split; [reflexivity | auto]].
  cbn [map]. fold (lookup_request E (field "variant_id" li)).
  pose proof (one_request ("variants/" ++ to_str (field "variant_id" li) ++ ".json")
                          "GET" Null w) as Hw.
  pose proof (reads ("variants/" ++ to_str (field "variant_id" li) ++ ".json")
                    "GET" Null w) as Hr.
  destruct (shopifyRequest _ _ _ w) as [[vdata | e] w'] eqn:Hsr; cbn [snd] in Hw; subst w';
    [| exists s; split; [reflexivity | auto]].
  specialize (Hr vdata _ eq_refl). fold (lookup_request E (field "variant_id" li)) in Hr.
  destruct (truthy vdata) eqn:Hvdata; [| exists s; split; [reflexivity | auto]].
  assert (get vdata "variant" = Ok (field "variant" vdata)) as ->
    by (apply get_field; intros ->; discriminate Hvdata).
  destruct (truthy (field "variant" vdata)) eqn:Hvariant;
    [| exists s; split; [reflexivity | auto]].
  assert (get (field "variant" vdata) "product_id" =
          Ok (field "product_id" (field "variant" vdata))) as ->
    by (apply get_field; intros Heq; rewrite Heq in Hvariant; discriminate Hvariant).
  destruct (truthy (field "product_id" (field "variant" vdata))) eqn:Hpid;
    [| exists s; split; [reflexivity | auto]].
  eexists. split; [reflexivity |].
  intros pid Hin. apply collect_In in Hin as [-> | Hin]; [| left; exact Hin].
  right. exists (field "variant_id" li), vdata.
  unfold temp_variant. rewrite Htemp, Hvid. repeat split; assumption.
Qed.

Lemma scan_items_lookup items :
  forallb readable_item items = true ->
  forall s w, exists s',
    for_of items scan s w = (Ok s', sent w (map (lookup_request E) (wanted E items))) /\
    (forall pid, In pid s' ->
       In pid s \/
       exists li l, In li items /\ resolved E (calls w ++ l) li pid).
Proof.
  induction items as [| li items IH]; intros Hall s w; cbn [for_of].
  - exists s. unfold ret. cbn [wanted flat_map map]. rewrite sent_nil.
    split; [reflexivity | auto].
  - cbn [forallb] in Hall. apply andb_prop in Hall as [Hli Hrest].
    destruct (scan_item_lookup li s w Hli) as (s1 & H1 & R1).
    destruct (IH Hrest s1 (sent w (map (lookup_request E) (wanted E [li]))))
      as (s2 & H2 & R2).
    exists s2. unfold bind. rewrite (wanted_cons E li items), map_app, H1, H2, sent_sent.
    split; [reflexivity |].
    intros pid Hin. destruct (R2 pid Hin) as [Hin1 | (li' & l & Hli' & Hres)].
    + destruct (R1 pid Hin1) as [Hs | Hres]; [left; exact Hs |].
      right. exists li, []. rewrite app_nil_r. split; [left; reflexivity | exact Hres].
    + right. exists li'. cbn [sent calls] in Hres. rewrite <- app_assoc in Hres.
      eexists. split; [right; exact Hli' | exact Hres].
Qed.

Lemma wanted_nil_scan items :
  forallb readable_item items = true ->
  wanted E items = [] ->
  forall s w, for_of items scan s w = (Ok s, w).
Proof.
  induction items as [| li items IH]; intros Hall Hw s w; cbn [for_of]; [reflexivity |].
  cbn [forallb] in Hall. apply andb_prop in Hall as [Hli Hrest].
  rewrite wanted_cons in Hw. apply app_eq_nil in Hw as [Hw1 Hw2].
  destruct (scan_item_lookup li s w Hli) as (s1 & H1 & _).
  assert (scan li s w = (Ok s, w)) as H1'.
  { clear H1 s1. unfold scan_line_item, bind, lift, try_catch, ret.
    assert (readable_sku (field "sku" li) = true) as Hsku
      by (destruct li; try discriminate Hli; try reflexivity; exact Hli).
    rewrite (readable_item_get li "sku" Hli), (is_temp_sku_temp E _ Hsku).
    unfold wanted in Hw1. cbn [flat_map] in Hw1. unfold temp_variant in Hw1.
    destruct (temp_sku E (field "sku" li)); [| reflexivity].
    rewrite (readable_item_get li "variant_id" Hli).
    destruct (truthy (field "variant_id" li)); [discriminate Hw1 | reflexivity]. }
  unfold bind. rewrite H1'. apply IH; assumption.
Qed.

Lemma scannable_order_items j :
  scannable j = true ->
  get j "line_items" = Ok (field "line_items" j) /\
  iterate (or_else (field "line_items" j) (Arr [])) = Ok (order_items j) /\
  forallb readable_item (order_items j) = true.
Proof.
  intros Hj. destruct (scannable_items j Hj) as (li & items & Hget & Hit & Hall).
  assert (li = field "line_items" j) as ->.
  { destruct j; cbn [get field] in Hget |- *; try discriminate Hget;
      injection Hget as <-; reflexivity. }
  unfold order_items. rewrite Hit. repeat split; assumption.
Qed.

(** The whole run on a scannable order. *)
Lemma process_trace body raw j w :
  body_toString body = Ok raw ->
  JSON_parse E raw = Some j ->
  scannable j = true ->
  exists pids,
    process body w =
      (Ok (Send 200 "OK"),
       sent w (map (lookup_request E) (wanted E (order_items j)) ++
               map (delete_request E) pids)%list) /\
    (wanted E (order_items j) = [] -> pids = []) /\
    (forall pid, In pid pids ->
       exists li l, In li (order_items j) /\ resolved E (calls w ++ l) li pid).
Proof.
  intros Htext Hparse Hj.
  destruct (scannable_order_items j Hj) as (Hget & Hit & Hall).
  destruct (scan_items_lookup _ Hall [] w) as (pids & Hscan & Hres).
  exists pids. split; [| split].
  - unfold process_order, try_catch, bind, parse, lift, ret.
    rewrite Htext, Hparse, Hget, Hit, Hscan.
    rewrite (delete_all_total E shopifyRequest one_request), sent_sent. reflexivity.
  - intros Hw. rewrite (wanted_nil_scan _ Hall Hw [] w) in Hscan.
    injection Hscan as <- _. reflexivity.
  - intros pid Hin. destruct (Hres pid Hin) as [[] | H]. exact H.
Qed.

End Lookups.

Lemma Set_add_In x p s : In x (Set_add p s) -> x = p \/ In x s.
Proof.
  unfold Set_add. destruct (existsb (same_value_zero p) s); [right; assumption |].
  intros H. apply in_app_or in H as [H | [<- | []]]; [right; exact H | left; reflexivity].
Qed.

Lemma push_In x p s : In x (push p s) -> x = p \/ In x s.
Proof.
  unfold push. intros H.
  apply in_app_or in H as [H | [<- | []]]; [right; exact H | left; reflexivity].
Qed.

Lemma delete_requests_delete E pids : Forall is_DELETE (map (delete_request E) pids).
Proof. induction pids as [| pid pids IH]; constructor; [reflexivity | exact IH]. Qed.

(** X2: for an order the handler reads and can scan, each of the three files
    answers 200 and sends one variant look-up per line item that has a
    non-empty SKU starting with the reserved prefix and a truthy
    [variant_id], in the order of the line items; whatever follows is a
    deletion, and an order without such an item sends nothing at all.  The
    variant references are taken to be printable. *)
Theorem webhook_looks_up_temporary_items_only :
  forall (E : env) (req : request value) (w : world) (j : value),
    reads_order E req j ->
    scannable j = true ->
    forallb printable (wanted E (order_items j)) = true ->
    let lookups := map (lookup_request E) (wanted E (order_items j)) in
    let run_of (run : outcome reply * world) :=
      exists deletions,
        run = (Ok (Send 200 "OK"), sent w (lookups ++ deletions)%list) /\
        Forall is_DELETE deletions /\
        (wanted E (order_items j) = [] -> deletions = []) in
    run_of (Part001.post_orders_create E req w) /\
    run_of (Part002a.post_orders_create E req w) /\
    run_of (Part002b.post_orders_create E req w).
Proof.
  intros E req w j (Hno & _ & raw & Htext & Hparse) Hj _ lookups run_of.
  subst lookups run_of. cbv beta.
  rewrite unguarded_Part001, unguarded_Part002a, unguarded_Part002b by assumption.
  repeat split.
  - destruct (process_trace E _ Set_add (sends_one_Part001 E) (reads_reply_Part001 E)
                Set_add_In _ raw j w Htext Hparse Hj) as (pids & Hrun & Hnil & _).
    exists (map (delete_request E) pids).
    split; [exact Hrun | split; [apply delete_requests_delete |]].
    intros Hw. rewrite (Hnil Hw). reflexivity.
  - destruct (process_trace E _ Set_add (sends_one_Part002a E) (reads_reply_Part002a E)
                Set_add_In _ raw j w Htext Hparse Hj) as (pids & Hrun & Hnil & _).
    exists (map (delete_request E) pids).
    split; [exact Hrun | split; [apply delete_requests_delete |]].
    intros Hw. rewrite (Hnil Hw). reflexivity.
  - destruct (process_trace E _ push (sends_one_Part002b E) (reads_reply_Part002b E)
                push_In _ raw j w Htext Hparse Hj) as (pids & Hrun & Hnil & _).
    exists (map (delete_request E) pids).
    split; [exact Hrun | split; [apply delete_requests_delete |]].
    intros Hw. rewrite (Hnil Hw). reflexivity.
Qed.

Lemma webhook_looks_up_temporary_items_only_witness :
  let E := Fixtures.mk [] (Fixtures.store Fixtures.txt_empty_object)
                       (fun _ => Fixtures.millis) in
  let req := MkReq (fun _ => None) (Arr [Str Fixtures.txt_order_twice]) in
  let j := Obj [("line_items", Arr [Fixtures.line_item; Fixtures.line_item])] in
  let lookups := map (lookup_request E) (wanted E (order_items j)) in
  exists deletions,
    Part001.post_orders_create E req w0 =
      (Ok (Send 200 "OK"), sent w0 (lookups ++ deletions)%list) /\
    Forall is_DELETE deletions /\
    (wanted E (order_items j) = [] -> deletions = []).
Proof.
  intros E req j.
  refine (proj1 (webhook_looks_up_temporary_items_only E req w0 j _ _ _)).
  - split; [reflexivity | split; [reflexivity |]]. exists Fixtures.txt_order_twice. split; reflexivity.
  - reflexivity.
  - reflexivity.
Defined.





Example webhook_refused_deletion_still_200 :
  let E := Fixtures.mk [] Fixtures.store_refusing_deletes (fun _ => Fixtures.millis) in
  let req := MkReq (fun _ => None) (Arr [Str Fixtures.txt_order_twice]) in
  Part001.post_orders_create E req w0 =
    (Ok (Send 200 "OK"),
     sent w0 [lookup_request E (Num 11); lookup_request E (Num 11);
              delete_request E (Num 7)]).
Proof. vm_compute. reflexivity. Qed.

(** X26: an order the handler reads that has no [line_items], or a falsy
    one, is an empty order: each of the three files answers 200 and sends
    nothing upstream. *)
Theorem webhook_order_read_without_line_items_is_empty :
  forall (E : env) (req : request value) (w : world) (j li : value),
    reads_order E req j ->
    get j "line_items" = Ok li ->
    truthy li = false ->
    Part001.post_orders_create E req w = (Ok (Send 200 "OK"), w) /\
    Part002a.post_orders_create E req w = (Ok (Send 200 "OK"), w) /\
    Part002b.post_orders_create E req w = (Ok (Send 200 "OK"), w).
Proof.
  intros E req w j li (Hno & _ & raw & Htext & Hparse) Hget Hfalsy.
  rewrite unguarded_Part001, unguarded_Part002a, unguarded_Part002b by assumption.
  repeat split; eapply process_no_line_items; eassumption.
Qed.

Lemma webhook_order_read_without_line_items_is_empty_witness :
  let E := Fixtures.mk [] (Fixtures.store Fixtures.txt_empty_object)
                       (fun _ => Fixtures.millis) in
  let req := MkReq (fun _ => None) (Arr [Str Fixtures.txt_order_no_items]) in
  Part001.post_orders_create E req w0 = (Ok (Send 200 "OK"), w0) /\
  Part002a.post_orders_create E req w0 = (Ok (Send 200 "OK"), w0) /\
  Part002b.post_orders_create E req w0 = (Ok (Send 200 "OK"), w0).
Proof.
  intros E req.
  apply (webhook_order_read_without_line_items_is_empty E req w0 (Obj [("id", Num 1)]) Undefined).
  - split; [reflexivity | split; [reflexivity |]]. exists Fixtures.txt_order_no_items. split; reflexivity.
  - reflexivity.
  - reflexivity.
Defined.

(** *** Orders the webhook gives up on *)

Section GivingUp.

Context (E : env).
Context (shopifyRequest : string -> string -> value -> M value).
Context (collect : value -> list value -> list value).
Hypothesis one_request : sends_one E shopifyRequest.

Local Abbreviation scan := (scan_line_item E shopifyRequest collect).
Local Abbreviation process := (process_order E shopifyRequest collect).

(** A loop whose turns only send requests of one kind only sends requests
    of that kind. *)
Lemma for_of_sends {S : Type} (P : call -> Prop) (body : value -> S -> M S) :
  (forall x s w, exists l, snd (body x s w) = sent w l /\ Forall P l) ->
  forall items s w, exists l, snd (for_of items body s w) = sent w l /\ Forall P l.
Proof.
  intros Hbody. induction items as [| x items IH]; intros s w; cbn [for_of].
  - exists []. unfold ret. cbn [snd]. rewrite sent_nil. split; [reflexivity | constructor].
  - unfold bind. destruct (Hbody x s w) as (l1 & H1 & P1).
    destruct (body x s w) as [[s1 | e] w1]; cbn [snd] in H1; subst w1.
    + destruct (IH s1 (sent w l1)) as (l2 & H2 & P2). exists (l1 ++ l2)%list.
      rewrite H2, sent_sent. split; [reflexivity | apply Forall_app; split; assumption].
    + exists l1. split; [reflexivity | exact P1].
Qed.

Lemma scan_item_sends li s w :
  exists l, snd (scan li s w) = sent w l /\ Forall is_GET l.
Proof.
  unfold scan_line_item, bind, lift, try_catch, ret.
  assert (exists l, w = sent w l /\ Forall is_GET l) as Hnone
    by (exists []; rewrite sent_nil; split; [reflexivity | constructor]).
  destruct (get li "sku") as [sku0 | e]; [| exact Hnone].
  destruct (is_temp_sku E (or_else sku0 (Str ""))) as [[|] | e]; try exact Hnone.
  destruct (get li "variant_id") as [variantId | e]; [| exact Hnone].
  destruct (truthy variantId); [| exact Hnone].
  pose proof (one_request ("variants/" ++ to_str variantId ++ ".json") "GET" Null w) as Hw.
  assert (Forall is_GET [request_opts E ("variants/" ++ to_str variantId ++ ".json")
                                      "GET" Null]) as Hget
    by (constructor; [reflexivity | constructor]).
  destruct (shopifyRequest _ _ _ w) as [[vdata | e] w1]; cbn [snd] in Hw; subst w1;
    [| eexists; split; [reflexivity | exact Hget]].
  destruct (truthy vdata); [| eexists; split; [reflexivity | exact Hget]].
  destruct (get vdata "variant") as [variant | e];
    [| eexists; split; [reflexivity | exact Hget]].
  destruct (truthy variant); [| eexists; split; [reflexivity | exact Hget]].
  destruct (get variant "product_id") as [pid | e];
    [| eexists; split; [reflexivity | exact Hget]].
  destruct (truthy pid); eexists; (split; [reflexivity | exact Hget]).
Qed.

(** An order that is not scannable is answered 500 after look-ups at most:
    no deletion is sent. *)
Lemma process_gives_up body raw j w :
  body_toString body = Ok raw ->
  JSON_parse E raw = Some j ->
  scannable j = false ->
  exists l,
    process body w = (Ok (Send 500 "Error"), sent w l) /\ Forall is_GET l.
Proof.
  intros Htext Hparse Hj.
  assert (forall r : reply, exists l, (Ok r, w) = (Ok r, sent w l) /\ Forall is_GET l)
    as Hnone by (intros r; exists []; rewrite sent_nil; split; [reflexivity | constructor]).
  unfold process_order, try_catch. unfold bind at 1. unfold lift at 1. rewrite Htext.
  unfold bind at 1. unfold parse. rewrite Hparse.
  unfold ret at 1. unfold bind at 1. unfold lift at 1.
  destruct j as [| | b | z | str | l | fs]; cbn [scannable] in Hj; try discriminate Hj;
    cbn [get]; try apply Hnone.
  unfold bind at 1. unfold lift at 1. unfold or_else.
  destruct (lookup "line_items" fs) as [| | b | z | str | l | fs'];
    cbn [readable_items truthy negb] in Hj |- *; try discriminate Hj.
  - destruct b; [| discriminate Hj]. apply Hnone.
  - destruct (z =? 0)%Z; cbn [negb] in Hj |- *; [discriminate Hj |]. apply Hnone.
  - cbn [iterate]. unfold bind at 1.
    destruct (scan_items_throw E shopifyRequest collect one_request l Hj [] w)
      as (e & w' & Hscan).
    destruct (for_of_sends is_GET scan scan_item_sends l [] w) as (sentl & Hl & HP).
    rewrite Hscan in Hl |- *. cbn [snd] in Hl. subst w'.
    exists sentl. split; [reflexivity | exact HP].
  - apply Hnone.
Qed.

End GivingUp.

(** X4: an order the handler reads but cannot scan (a [null] value, a
    [line_items] that cannot be iterated, a [null] item, an item whose [sku]
    is truthy but not a string) is answered 500, and whatever was sent
    before the scan gave up is a look-up: no deletion is sent for such an
    order, even for items read before the offending one.  Holds for the
    three files. *)
Theorem webhook_unreadable_order_deletes_nothing :
  forall (E : env) (req : request value) (w : world) (j : value),
    reads_order E req j ->
    scannable j = false ->
    (exists l, Part001.post_orders_create E req w = (Ok (Send 500 "Error"), sent w l) /\
               Forall is_GET l) /\
    (exists l, Part002a.post_orders_create E req w = (Ok (Send 500 "Error"), sent w l) /\
               Forall is_GET l) /\
    (exists l, Part002b.post_orders_create E req w = (Ok (Send 500 "Error"), sent w l) /\
               Forall is_GET l).
Proof.
  intros E req w j (Hno & _ & raw & Htext & Hparse) Hj.
  rewrite unguarded_Part001, unguarded_Part002a, unguarded_Part002b by assumption.
  repeat split.
  - exact (process_gives_up E _ Set_add (sends_one_Part001 E) _ raw j w Htext Hparse Hj).
  - exact (process_gives_up E _ Set_add (sends_one_Part002a E) _ raw j w Htext Hparse Hj).
  - exact (process_gives_up E _ push (sends_one_Part002b E) _ raw j w Htext Hparse Hj).
Qed.

Lemma webhook_unreadable_order_deletes_nothing_witness :
  let E := Fixtures.mk [] (Fixtures.store Fixtures.txt_empty_object)
                       (fun _ => Fixtures.millis) in
  let req := MkReq (fun _ => None) (Arr [Str Fixtures.txt_order_null_item]) in
  exists l, Part001.post_orders_create E req w0 = (Ok (Send 500 "Error"), sent w0 l) /\
            Forall is_GET l.
Proof.
  intros E req.
  refine (proj1 (webhook_unreadable_order_deletes_nothing E req w0
                   (Obj [("line_items", Arr [Null])]) _ _)).
  - split; [reflexivity | split; [reflexivity |]]. exists Fixtures.txt_order_null_item. split; reflexivity.
  - reflexivity.
Defined.

(** X5: without a secret, a request that carries a JSON object, as every
    order Shopify posts does, is answered 500 and nothing is sent upstream:
    [req.body] holds the parsed object, its [toString] gives
    [[object Object]] (or is not callable), and [JSON.parse] rejects that
    text.  Holds for the three files. *)
Theorem webhook_object_body_is_answered_500 :
  forall (E : env) (req : request value) (w : world) (fs : list (string * value)),
    SHOPIFY_WEBHOOK_SECRET E = "" ->
    req_body req = Obj fs ->
    JSON_parse E "[object Object]" = None ->
    Part001.post_orders_create E req w = (Ok (Send 500 "Error"), w) /\
    Part002a.post_orders_create E req w = (Ok (Send 500 "Error"), w) /\
    Part002b.post_orders_create E req w = (Ok (Send 500 "Error"), w).
Proof.
  intros E req w fs Hno Hbody Hparse.
  rewrite unguarded_Part001, unguarded_Part002a, unguarded_Part002b by assumption.
  rewrite Hbody. repeat split; apply process_object; assumption.
Qed.

Lemma webhook_object_body_is_answered_500_witness :
  let E := Fixtures.mk [] (Fixtures.store Fixtures.txt_empty_object)
                       (fun _ => Fixtures.millis) in
  let req := MkReq (fun _ => None)
                   (Obj [("line_items", Arr [Fixtures.line_item; Fixtures.line_item])]) in
  Part001.post_orders_create E req w0 = (Ok (Send 500 "Error"), w0) /\
  Part002a.post_orders_create E req w0 = (Ok (Send 500 "Error"), w0) /\
  Part002b.post_orders_create E req w0 = (Ok (Send 500 "Error"), w0).
Proof.
  intros E req.
  apply (webhook_object_body_is_answered_500 E req w0
           [("line_items", Arr [Fixtures.line_item; Fixtures.line_item])]).
  - reflexivity.
  - reflexivity.
  - reflexivity.
Defined.

(** *** The create route when upstream fails *)

Lemma shopifyRequest_Part001_fails E path method body w st stt txt :
  upstream E (calls w) (request_opts E path method body) = Response st stt txt ->
  res_ok st = false ->
  Part001.shopifyRequest E path method body w =
  (Throw (Error ("Shopify API error (" ++ string_of_Z st ++ "): " ++ txt)),
   sent w [request_opts E path method body]).
Proof.
  intros Hup Hok.
  rewrite (surjective_pairing (Part001.shopifyRequest E path method body w)).
  rewrite (shopifyRequest_Part001_not_ok E path method body w st stt txt Hup Hok).
  rewrite sends_one_Part001. reflexivity.
Qed.

Lemma shopifyRequest_Part002a_fails E path method body w st stt txt :
  upstream E (calls w) (request_opts E path method body) = Response st stt txt ->
  res_ok st = false ->
  Part002a.shopifyRequest E path method body w =
  (Throw (Error ("Shopify API error (" ++ string_of_Z st ++ " " ++ stt ++ "): " ++ txt)),
   sent w [request_opts E path method body]).
Proof.
  intros Hup Hok.
  rewrite (surjective_pairing (Part002a.shopifyRequest E path method body w)).
  rewrite (shopifyRequest_Part002a_not_ok E path method body w st stt txt Hup Hok).
  rewrite sends_one_Part002a. reflexivity.
Qed.

Ltac step H := unfold bind at 1; try unfold lift at 1; rewrite H.



(** X7: in the first file, an [imageBase64] that is truthy but not a string
    (a number, [true], an array, an object) makes [.replace] throw: the
    route answers 500 with a failure body and sends nothing upstream. *)
Theorem create_route_rejects_non_string_image :
  forall (E : env) (req : request value) (w : world) (image : value),
    get (req_body req) "imageBase64" = Ok image ->
    truthy image = true ->
    (forall s, image <> Str s) ->
    exists text,
      Part001.post_create_custom_product E req w =
        (Ok (Json 500 (Obj [("success", Bool false); ("message", Str text)])), w).
Proof.
  intros E req w image Hi Himg Hns.
  destruct (get_readable _ _ _ "title" Hi) as [title Ht].
  destruct (get_readable _ _ _ "price" Hi) as [price Hp].
  unfold Part001.post_create_custom_product, try_catch.
  step Ht. step Hi. step Hp. rewrite Himg. cbn [negb].
  unfold bind at 1. unfold lift at 1.
  destruct image; try discriminate Himg; try (eexists; reflexivity).
  exfalso. exact (Hns s eq_refl).
Qed.

Lemma create_route_rejects_non_string_image_witness :
  let E := Fixtures.mk [] (Fixtures.store Fixtures.txt_product_echo)
                       (fun _ => Fixtures.millis) in
  let req := MkReq (fun _ => None) (Obj [("imageBase64", Num 42)]) in
  exists text,
    Part001.post_create_custom_product E req w0 =
      (Ok (Json 500 (Obj [("success", Bool false); ("message", Str text)])), w0).
Proof.
  intros E req.
  apply (create_route_rejects_non_string_image E req w0 (Num 42)).
  - reflexivity.
  - reflexivity.
  - discriminate.
Defined.

(** *** The create route with a file upload *)

Lemma uploadFile_world_Part002a E base64 filename w :
  snd (Part002a.uploadFileToShopify E base64 filename w) =
  sent w [request_opts E "files.json" "POST"
            (Obj [("file", Obj [("attachment", base64); ("filename", filename)])])].
Proof.
  unfold Part002a.uploadFileToShopify, bind, lift, throw, ret. cbv zeta.
  match goal with
  | |- context [Part002a.shopifyRequest E ?p ?m ?b ?w1] =>
      pose proof (sends_one_Part002a E p m b w1) as Hw;
      destruct (Part002a.shopifyRequest E p m b w1) as [[data | e] w2]
  end; cbn [snd] in Hw |- *; subst w2; [| reflexivity].
  destruct (truthy data); cbn [negb]; [| reflexivity].
  destruct (get data "file") as [file | e]; [| reflexivity].
  destruct (truthy file); cbn [negb]; [| reflexivity].
  destruct (get file "url") as [u | e]; [| reflexivity].
  destruct (truthy u); reflexivity.
Qed.

(** The URL the upload helper returns is the [file.url] upstream sent back. *)
Lemma uploadFile_Part002a_returns E base64 filename w fileUrl w' :
  Part002a.uploadFileToShopify E base64 filename w = (Ok fileUrl, w') ->
  exists data,
    answered E (calls w)
      (request_opts E "files.json" "POST"
         (Obj [("file", Obj [("attachment", base64); ("filename", filename)])])) data /\
    field "url" (field "file" data) = fileUrl /\
    truthy fileUrl = true.
Proof.
  unfold Part002a.uploadFileToShopify. intros H. backwards'.
  match goal with
  | Hsr : Part002a.shopifyRequest _ _ _ _ _ = (Ok ?d, _) |- _ =>
      apply shopifyRequest_Part002a_Ok in Hsr as [Hans _]; exists d
  end.
  split; [exact Hans |].
  repeat match goal with
         | Hg : get ?v ?k = Ok ?x, Ht : truthy ?v = true |- _ =>
             rewrite (get_field v k) in Hg
               by (intros Heq; rewrite Heq in Ht; discriminate Ht);
             injection Hg as <-
         end.
  split; [reflexivity | assumption].
Qed.

(** X8: in the second file, when the upload helper throws (upstream rejects
    the request, answers with a non-success status, or returns no
    [file.url]), the create route answers 500 with the error's message and
    the upload is the only request sent: the product creation is never
    attempted. *)
Theorem create_route_stops_after_failed_upload :
  forall (E : env) (req : request value) (w : world) (image : value)
         (e : exn) (w2 : world),
    get (req_body req) "imageBase64" = Ok image ->
    truthy image = true ->
    let filename := Str ("custom-" ++ string_of_Z (Date_now E (ticks w)) ++ ".jpg") in
    Part002a.uploadFileToShopify E image filename (MkWorld (calls w) (S (ticks w)))
      = (Throw e, w2) ->
    Part002a.post_create_custom_product E req w =
      (Ok (Json 500 (Obj [("success", Bool false);
                          ("message", Str (message_or_String e))])), w2) /\
    calls w2 =
      (calls w ++ [request_opts E "files.json" "POST"
                     (Obj [("file", Obj [("attachment", image);
                                         ("filename", filename)])])])%list.
Proof.
  intros E req w image e w2 Hi Himg filename Hup.
  destruct (get_readable _ _ _ "title" Hi) as [title Ht].
  destruct (get_readable _ _ _ "price" Hi) as [price Hp].
  split.
  - unfold Part002a.post_create_custom_product, try_catch.
    step Ht. step Hi. step Hp. rewrite Himg. cbn [negb].
    unfold bind at 1. unfold now at 1.
    unfold bind at 1. fold filename. change (to_str (Num (Date_now E (ticks w))))
      with (string_of_Z (Date_now E (ticks w))). fold filename. rewrite Hup.
    reflexivity.
  - pose proof (uploadFile_world_Part002a E image filename
                  (MkWorld (calls w) (S (ticks w)))) as Hw.
    rewrite Hup in Hw. cbn [snd] in Hw. subst w2. reflexivity.
Qed.

Lemma create_route_stops_after_failed_upload_witness :
  let E := Fixtures.mk [] (Fixtures.always 500 "Internal Server Error"
                             Fixtures.txt_empty_object)
                       (fun _ => Fixtures.millis) in
  let req := MkReq (fun _ => None) (Obj [("imageBase64", Str "AAAA")]) in
  exists r w2,
    Part002a.post_create_custom_product E req w0 = (Ok r, w2) /\
    status_of r = 500%Z /\
    calls w2 =
      (calls w0 ++ [request_opts E "files.json" "POST"
                      (Obj [("file", Obj [("attachment", Str "AAAA");
                                          ("filename", Str "custom-1700000000000.jpg")])])])%list.
Proof.
  intros E req.
  destruct (create_route_stops_after_failed_upload E req w0 (Str "AAAA")
              (Error ("Shopify API error (500 Internal Server Error): "
                      ++ Fixtures.txt_empty_object))
              (sent (MkWorld [] 1)
                    [request_opts E "files.json" "POST"
                          (Obj [("file", Obj [("attachment", Str "AAAA");
                                              ("filename", Str "custom-1700000000000.jpg")])])]))
    as [Hrun Hcalls].
  - reflexivity.
  - reflexivity.
  - vm_compute. reflexivity.
  - eexists. eexists. split; [exact Hrun |]. split; [reflexivity | exact Hcalls].
Defined.

(** X9: in the second file, a create request that succeeds has sent two
    requests, the upload and then the product creation; the image [src] of
    the product is the [file.url] upstream returned for the upload, and the
    same URL is the [fileUrl] of the reply. *)
Theorem create_route_uses_uploaded_url :
  forall (E : env) (req : request value) (w : world) (payload : value) (w' : world),
    Part002a.post_create_custom_product E req w = (Ok (Json 200 payload), w') ->
    exists image c1 c2 data fileUrl,
      get (req_body req) "imageBase64" = Ok image /\
      c1 = request_opts E "files.json" "POST"
             (Obj [("file", Obj [("attachment", image);
                                 ("filename",
                                  Str ("custom-" ++ string_of_Z (Date_now E (ticks w))
                                       ++ ".jpg"))])]) /\
      calls w' = (calls w ++ [c1; c2])%list /\
      answered E (calls w) c1 data /\
      field "url" (field "file" data) = fileUrl /\
      url c2 = request_url E "products.json" /\
      field "src" (first (field "images" (product_sent c2))) = fileUrl /\
      field "fileUrl" payload = fileUrl.
Proof.
  intros E req w payload w'.
  unfold Part002a.post_create_custom_product. intros H.
  apply try_catch_reply in H as [H | (e & _ & He)]; [| discriminate He].
  backwards'; try discriminate.
  all: match goal with
       | Hu : Part002a.uploadFileToShopify _ _ _ _ = (Ok ?u, _) |- _ =>
           pose proof (uploadFile_Part002a_returns _ _ _ _ _ _ Hu)
             as (data & Hans & Hurl & _);
           apply uploadFile_Part002a_Ok in Hu; subst
       end.
  all: match goal with
       | Hc : Part002a.createHiddenProductWithImage _ _ _ _ _ = (Ok ?p, _) |- _ =>
           apply createHidden_Part002a_Ok in Hc as [Hw _]; subst
       end.
  all: match goal with
       | Hg : get _ "imageBase64" = Ok ?img,
         Hj : Json 200 _ = Json 200 _ |- _ =>
           injection Hj as ->; exists img; do 2 eexists; exists data; eexists
       end.
  all: repeat split; try eassumption.
  all: try (cbn [sent calls ticks]; rewrite <- app_assoc; reflexivity).
  all: reflexivity.
Qed.

Lemma create_route_uses_uploaded_url_witness :
  let E := Fixtures.mk [] (Fixtures.store Fixtures.txt_product_echo)
                       (fun _ => Fixtures.millis) in
  let req := MkReq (fun _ => None) (Obj [("imageBase64", Str "AAAA")]) in
  exists image c1 c2 data fileUrl,
    get (req_body req) "imageBase64" = Ok image /\
    c1 = request_opts E "files.json" "POST"
           (Obj [("file", Obj [("attachment", image);
                               ("filename",
                                Str ("custom-" ++ string_of_Z (Date_now E (ticks w0))
                                     ++ ".jpg"))])]) /\
    calls (snd (Part002a.post_create_custom_product E req w0)) = (calls w0 ++ [c1; c2])%list /\
    answered E (calls w0) c1 data /\
    field "url" (field "file" data) = fileUrl /\
    url c2 = request_url E "products.json" /\
    field "src" (first (field "images" (product_sent c2))) = fileUrl /\
    field "fileUrl"
      (Obj [("success", Bool true); ("productId", Num 7); ("variantId", Num 11);
            ("sku", Str "CUST-1700000000000");
            ("fileUrl", Str "https://cdn.example/custom.jpg")]) = fileUrl.
Proof.
  intros E req.
  apply (create_route_uses_uploaded_url E req w0).
  vm_compute. reflexivity.
Defined.

(** *** The product that gets created *)

Lemma createHidden_world_Part002b E title fileUrl price w :
  snd (Part002b.createHiddenProductWithImage E title fileUrl price w) =
  MkWorld (calls w ++ [request_opts E "products.json" "POST"
                         (Part002b.product_payload E (default_to title (Str "Custom Jersey"))
                            fileUrl (default_to price (Str "499.00"))
                            (Date_now E (ticks w)))])
          (S (ticks w)).
Proof.
  unfold Part002b.createHiddenProductWithImage, bind, now, lift, throw, ret. cbv zeta.
  match goal with
  | |- context [Part002b.shopifyRequest E ?p ?m ?b ?w1] =>
      pose proof (sends_one_Part002b E p m b w1) as Hw;
      destruct (Part002b.shopifyRequest E p m b w1) as [[data | e] w2]
  end; cbn [snd calls ticks] in Hw; subst w2; [| reflexivity].
  destruct (truthy data); cbn [negb]; [| reflexivity].
  destruct (get data "product") as [product | e]; [| reflexivity].
  destruct (truthy product); reflexivity.
Qed.



(** *** The admin sweep *)

Lemma shopifyRequest_Part001_answered E path method body w v :
  answered E (calls w) (request_opts E path method body) v ->
  Part001.shopifyRequest E path method body w =
  (Ok v, sent w [request_opts E path method body]).
Proof.
  intros (st & stt & txt & Hup & Hok & Hp).
  cbv beta delta [Part001.shopifyRequest bind fetch throw ret].
  rewrite Hup. cbv beta iota zeta. rewrite Hok, Hp. reflexivity.
Qed.

Lemma shopifyRequest_Part002a_answered E path method body w v :
  answered E (calls w) (request_opts E path method body) v ->
  Part002a.shopifyRequest E path method body w =
  (Ok v, sent w [request_opts E path method body]).
Proof.
  intros (st & stt & txt & Hup & Hok & Hp).
  cbv beta delta [Part002a.shopifyRequest bind fetch throw ret].
  rewrite Hup. cbv beta iota zeta. rewrite Hok, Hp. reflexivity.
Qed.

Lemma is_temp_sku_plain E sku :
  readable_sku sku = true -> is_temp_sku E sku = Ok (temp_sku E sku).
Proof.
  unfold is_temp_sku, temp_sku.
  destruct sku as [| | b | z | s | l | fs]; cbn [readable_sku truthy negb startsWith];
    try discriminate; intros H; try reflexivity.
  - destruct b; [discriminate H | reflexivity].
  - destruct (z =? 0)%Z; cbn [negb] in H |- *; [reflexivity | discriminate H].
  - destruct (s =? "")%string; reflexivity.
Qed.

Lemma some_temp_sku_readable E l :
  forallb readable_item l = true ->
  some_temp_sku E l = Ok (existsb (fun v => temp_sku E (field "sku" v)) l).
Proof.
  induction l as [| v l IH]; intros Hall; cbn [some_temp_sku existsb]; [reflexivity |].
  cbn [forallb] in Hall. apply andb_prop in Hall as [Hv Hl].
  assert (readable_sku (field "sku" v) = true) as Hsku
    by (destruct v; try discriminate Hv; try reflexivity; exact Hv).
  rewrite (readable_item_get v "sku" Hv), (is_temp_sku_plain E _ Hsku).
  destruct (temp_sku E (field "sku" v)); [reflexivity | exact (IH Hl)].
Qed.

(** On a sweepable product the test of the sweep says whether the product has
    a variant with a temporary SKU. *)
Lemma shouldDelete_sweepable E p :
  sweepable p = true -> shouldDelete E p = Ok (is_temporary E p).
Proof.
  intros Hp. unfold shouldDelete, is_temporary.
  assert (get p "variants" = Ok (field "variants" p)) as ->
    by (apply get_field; intros ->; discriminate Hp).
  assert (match field "variants" p with
          | Arr l => forallb readable_item l
          | v => negb (truthy v)
          end = true) as Hv by (destruct p; try discriminate Hp; exact Hp).
  destruct (field "variants" p) as [| | b | z | s | l | fs]; cbn [truthy negb] in Hv |- *;
    try reflexivity; try discriminate Hv.
  - destruct b; [discriminate Hv | reflexivity].
  - destruct (negb (z =? 0)%Z); [discriminate Hv | reflexivity].
  - destruct (negb (s =? "")%string); [discriminate Hv | reflexivity].
  - apply some_temp_sku_readable. exact Hv.
Qed.

Section SweepLoop.

Context (E : env).
Context (shopifyRequest : string -> string -> value -> M value).
Hypothesis one_request : sends_one E shopifyRequest.
Hypothesis checks :
  forall path method body w v w',
    shopifyRequest path method body w = (Ok v, w') ->
    answered E (calls w) (request_opts E path method body) v.

Local Abbreviation turn := (sweep_one E shopifyRequest).

(** The deletions the sweep sends for a listing. *)
Local Abbreviation deletions items :=
  (map (delete_request E) (map (field "id") (filter (is_temporary E) items))).

(** Upstream confirmed the deletion of the listed temporary product [id]. *)
Local Abbreviation confirmed before items id :=
  (exists p l v, In p items /\ is_temporary E p = true /\ id = field "id" p /\
                 answered E (before ++ l)%list (delete_request E id) v).

Lemma sweep_one_turn p deleted w :
  sweepable p = true ->
  exists deleted',
    turn p deleted w = (Ok deleted', sent w (deletions [p])) /\
    (deleted' = deleted \/
     (deleted' = push (field "id" p) deleted /\ is_temporary E p = true /\
      exists v, answered E (calls w) (delete_request E (field "id" p)) v)).
Proof.
  intros Hp. unfold sweep_one, deleteProduct, bind, lift, try_catch, ret.
  rewrite (shouldDelete_sweepable E p Hp). cbn [filter].
  destruct (is_temporary E p) eqn:Htemp; cbn [map].
  - assert (get p "id" = Ok (field "id" p)) as ->
      by (apply get_field; intros ->; discriminate Hp).
    pose proof (one_request ("products/" ++ to_str (field "id" p) ++ ".json")
                            "DELETE" Null w) as Hw.
    pose proof (checks ("products/" ++ to_str (field "id" p) ++ ".json")
                       "DELETE" Null w) as Hc.
    destruct (shopifyRequest _ _ _ w) as [[v | e] w1]; cbn [snd] in Hw; subst w1.
    + eexists. split; [reflexivity |]. right. repeat split.
      exists v. exact (Hc v _ eq_refl).
    + exists deleted. split; [reflexivity | left; reflexivity].
  - exists deleted. rewrite sent_nil. split; [reflexivity | left; reflexivity].
Qed.

Lemma filter_cons_app {A} (f : A -> bool) x l :
  filter f (x :: l) = (filter f [x] ++ filter f l)%list.
Proof. cbn [filter]. destruct (f x); reflexivity. Qed.

Lemma sweep_loop items :
  forallb sweepable items = true ->
  forall deleted w, exists deleted',
    for_of items turn deleted w = (Ok deleted', sent w (deletions items)) /\
    (forall id, In id deleted' -> In id deleted \/ confirmed (calls w) items id).
Proof.
  induction items as [| p items IH]; intros Hall deleted w; cbn [for_of].
  - exists deleted. unfold ret. cbn [filter map]. rewrite sent_nil.
    split; [reflexivity | auto].
  - cbn [forallb] in Hall. apply andb_prop in Hall as [Hp Hrest].
    destruct (sweep_one_turn p deleted w Hp) as (d1 & H1 & R1).
    destruct (IH Hrest d1 (sent w (deletions [p]))) as (d2 & H2 & R2).
    exists d2. unfold bind.
    rewrite (filter_cons_app (is_temporary E) p items), !map_app, H1, H2, sent_sent.
    split; [reflexivity |].
    intros id Hin. destruct (R2 id Hin) as [Hin1 | (q & l & v & Hq & Htemp & Hid & Hans)].
    + destruct R1 as [-> | (-> & Htemp & v & Hans)]; [left; exact Hin1 |].
      apply push_In in Hin1 as [-> | Hin1]; [| left; exact Hin1].
      right. exists p, [], v. rewrite app_nil_r.
      repeat split; [left; reflexivity | exact Htemp | exact Hans].
    + right. exists q. cbn [sent calls] in Hans. rewrite <- app_assoc in Hans.
      do 2 eexists. repeat split; [right; exact Hq | exact Htemp | exact Hid | exact Hans].
Qed.

End SweepLoop.

Section SweepRun.

Context (E : env).
Context (shopifyRequest : string -> string -> value -> M value).
Context (err_text : exn -> string).
Hypothesis one_request : sends_one E shopifyRequest.
Hypothesis checks :
  forall path method body w v w',
    shopifyRequest path method body w = (Ok v, w') ->
    answered E (calls w) (request_opts E path method body) v.
Hypothesis answers :
  forall path method body w v,
    answered E (calls w) (request_opts E path method body) v ->
    shopifyRequest path method body w = (Ok v, sent w [request_opts E path method body]).

Lemma cleanup_run req w listRes ps items :
  admin_denied E req = false ->
  answered E (calls w) (list_request E) listRes ->
  get listRes "products" = Ok ps ->
  iterate (or_else ps (Arr [])) = Ok items ->
  forallb sweepable items = true ->
  exists deleted,
    cleanup_temp_products E shopifyRequest err_text req w =
      (Ok (Json 200 (Obj [("success", Bool true);
                          ("deletedCount", Num (Z.of_nat (List.length deleted)));
                          ("deleted", Arr deleted)])),
       sent w (list_request E ::
               map (delete_request E)
                   (map (field "id") (filter (is_temporary E) items)))) /\
    (forall id, In id deleted ->
       exists p l v, In p items /\ is_temporary E p = true /\ id = field "id" p /\
                     answered E (calls w ++ l)%list (delete_request E id) v).
Proof.
  intros Hin Hans Hps Hit Hall.
  destruct (sweep_loop E shopifyRequest one_request checks items Hall []
              (sent w [list_request E])) as (deleted & Hloop & Hconf).
  exists deleted. split.
  - unfold cleanup_temp_products, try_catch. rewrite Hin. unfold sweep.
    unfold bind at 1.
    rewrite (answers "products.json?limit=250&published_status=unpublished" "GET" Null
               w listRes Hans).
    fold (list_request E).
    step Hps. step Hit. unfold bind at 1. rewrite Hloop, sent_sent. reflexivity.
  - intros id Hid. destruct (Hconf id Hid) as [[] | (p & l & v & Hp & Htemp & Heq & Ha)].
    exists p. cbn [sent calls] in Ha. rewrite <- app_assoc in Ha.
    do 2 eexists. repeat split; eassumption.
Qed.

End SweepRun.



(** X13: when the admin key check lets a request in and upstream answers the
    listing with a non-success status, the admin route of the first two files
    answers 500 with [{success: false, message}], the message carrying the
    status and the raw body, and nothing but the listing request is sent. *)
Theorem sweep_surfaces_listing_error :
  forall (E : env) (req : request value) (w : world) (st : Z) (stt txt : string),
    admin_denied E req = false ->
    upstream E (calls w) (list_request E) = Response st stt txt ->
    res_ok st = false ->
    Part001.post_cleanup_temp_products E req w =
      (Ok (Json 500 (Obj [("success", Bool false);
                          ("message", Str ("Shopify API error (" ++ string_of_Z st
                                           ++ "): " ++ txt))])),
       sent w [list_request E]) /\
    Part002a.post_cleanup_temp_products E req w =
      (Ok (Json 500 (Obj [("success", Bool false);
                          ("message", Str ("Shopify API error (" ++ string_of_Z st
                                           ++ " " ++ stt ++ "): " ++ txt))])),
       sent w [list_request E]).
Proof.
  intros E req w st stt txt Hin Hup Hok.
  unfold Part001.post_cleanup_temp_products, Part002a.post_cleanup_temp_products,
    cleanup_temp_products, try_catch.
  rewrite Hin. unfold sweep. split.
  - unfold bind at 1.
    rewrite (shopifyRequest_Part001_fails
               E "products.json?limit=250&published_status=unpublished" "GET" Null
               w st stt txt Hup Hok). reflexivity.
  - unfold bind at 1.
    rewrite (shopifyRequest_Part002a_fails
               E "products.json?limit=250&published_status=unpublished" "GET" Null
               w st stt txt Hup Hok). reflexivity.
Qed.

Lemma sweep_surfaces_listing_error_witness :
  let E := Fixtures.mk [] (Fixtures.always 401 "Unauthorized" Fixtures.txt_not_found)
                       (fun _ => Fixtures.millis) in
  let req := MkReq (fun _ => None) (Obj []) in
  Part001.post_cleanup_temp_products E req w0 =
    (Ok (Json 500 (Obj [("success", Bool false);
                        ("message", Str ("Shopify API error (401): "
                                         ++ Fixtures.txt_not_found))])),
     sent w0 [list_request E]) /\
  Part002a.post_cleanup_temp_products E req w0 =
    (Ok (Json 500 (Obj [("success", Bool false);
                        ("message", Str ("Shopify API error (401 Unauthorized): "
                                         ++ Fixtures.txt_not_found))])),
     sent w0 [list_request E]).
Proof.
  intros E req.
  apply (sweep_surfaces_listing_error E req w0 401 "Unauthorized" Fixtures.txt_not_found).
  - reflexivity.
  - reflexivity.
  - reflexivity.
Defined.

(** X14: the admin route of the third file has the same key check: without a
    configured key every request starts the sweep with the listing request;
    with a key, a request whose [x-admin-key] header is missing or different
    is answered 401 and sends nothing. *)
Theorem admin_key_gate_third_file :
  forall (E : env) (req : request value) (w : world),
    (ADMIN_KEY E = "" ->
       exists rest,
         snd (Part002b.post_cleanup_temp_products E req w) =
         sent w (list_request E :: rest)) /\
    (ADMIN_KEY E <> "" ->
       req_get req "x-admin-key" <> Some (ADMIN_KEY E) ->
       Part002b.post_cleanup_temp_products E req w =
         (Ok (Json 401 (Obj [("success", Bool false); ("message", Str "Unauthorized")])), w)).
Proof.
  intros E req w.
  unfold Part002b.post_cleanup_temp_products. split.
  - intros Hno.
    assert (cleanup_temp_products E (Part002b.shopifyRequest E) message req w =
            try_catch (sweep E (Part002b.shopifyRequest E))
                      (fun err => ret (server_error message err)) w) as ->.
    { unfold cleanup_temp_products, try_catch, admin_denied. rewrite Hno. reflexivity. }
    apply sweep_lists_products, sends_one_Part002b.
  - intros Hkey Hhdr.
    unfold cleanup_temp_products, try_catch, admin_denied.
    destruct (String.eqb_spec (ADMIN_KEY E) ""); [contradiction |].
    cbn [negb andb].
    destruct (req_get req "x-admin-key") as [k |]; [| reflexivity].
    destruct (String.eqb_spec k (ADMIN_KEY E)); [subst k; contradiction | reflexivity].
Qed.

Lemma admin_key_gate_third_file_witness :
  let open := Fixtures.mk [] Fixtures.catalogue (fun _ => Fixtures.millis) in
  let locked := Fixtures.mk [("ADMIN_KEY", "some-admin-secret")] Fixtures.catalogue
                            (fun _ => Fixtures.millis) in
  let wrong := MkReq (fun _ => Some "guess") (Obj []) in
  (exists rest,
     snd (Part002b.post_cleanup_temp_products open wrong w0) =
     sent w0 (list_request open :: rest)) /\
  Part002b.post_cleanup_temp_products locked wrong w0 =
    (Ok (Json 401 (Obj [("success", Bool false); ("message", Str "Unauthorized")])), w0).
Proof.
  intros open locked wrong. split.
  - apply (proj1 (admin_key_gate_third_file open wrong w0)). reflexivity.
  - apply (proj2 (admin_key_gate_third_file locked wrong w0)).
    + vm_compute. discriminate.
    + vm_compute. discriminate.
Defined.

(** *** The data-URI pattern *)

Lemma strip_prefix_suffix p s r : strip_prefix p s = Some r -> s = p ++ r.
Proof.
  revert s. induction p as [| a p IH]; intros s; cbn [strip_prefix append].
  - intros H. injection H as <-. reflexivity.
  - destruct s as [| b s]; [discriminate |].
    destruct (Ascii.eqb_spec a b); [| discriminate].
    intros H. subst b. rewrite (IH s H). reflexivity.
Qed.

Lemma skip_letters_suffix s :
  exists p, s = p ++ snd (skip_letters s).
Proof.
  induction s as [| c s [p IH]]; cbn [skip_letters].
  - exists "". reflexivity.
  - destruct (is_letter c); [| exists ""; reflexivity].
    destruct (skip_letters s) as [n r]. cbn [snd] in IH |- *.
    exists (String c p). cbn [append]. rewrite <- IH. reflexivity.
Qed.

Lemma string_append_assoc (a b c : string) : (a ++ b) ++ c = a ++ (b ++ c).
Proof. induction a as [| x a IH]; cbn [append]; [reflexivity | rewrite IH; reflexivity]. Qed.

(** X15: removing the data-URI pattern never invents or reorders data: the
    result is always a tail of the input, and an input without a colon (bare
    base64, whose alphabet has none) comes back unchanged. *)
Theorem strip_data_uri_keeps_a_tail :
  forall s : string,
    (exists p, s = p ++ strip_data_uri s) /\
    (without ":"%char s = true -> strip_data_uri s = s).
Proof.
  intros s. unfold strip_data_uri.
  destruct (strip_prefix "data:image/" s) as [r |] eqn:Hp.
  - apply strip_prefix_suffix in Hp. split.
    + destruct (skip_letters_suffix r) as [letters_read Hr].
      destruct (skip_letters r) as [[| n] r']; [exists ""; reflexivity |].
      cbn [snd] in Hr.
      destruct (strip_prefix ";base64," r') as [rest |] eqn:Hb; [| exists ""; reflexivity].
      apply strip_prefix_suffix in Hb.
      exists ("data:image/" ++ letters_read ++ ";base64,").
      rewrite Hp, Hr, Hb. rewrite !string_append_assoc. reflexivity.
    + intros Hnc. subst s. discriminate Hnc.
  - split; [exists ""; reflexivity | reflexivity].
Qed.

Lemma strip_data_uri_keeps_a_tail_witness :
  (exists p, "iVBORw0KGgo=" = p ++ strip_data_uri "iVBORw0KGgo=") /\
  strip_data_uri "iVBORw0KGgo=" = "iVBORw0KGgo=".
Proof.
  destruct (strip_data_uri_keeps_a_tail "iVBORw0KGgo=") as [Htail Hsame].
  split; [exact Htail | apply Hsame; reflexivity].
Defined.

(** *** The storefront snippet *)

Import ThemeSnippet.

Lemma without_app c a b : without c (a ++ b) = without c a && without c b.
Proof.
  induction a as [| x a IH]; cbn [append without]; [reflexivity |].
  rewrite IH. apply andb_assoc.
Qed.

Lemma letters_without_comma s : letters s = true -> without ","%char s = true.
Proof.
  induction s as [| c s IH]; cbn [letters without]; [reflexivity |].
  intros H. apply andb_prop in H as [Hc Hs]. rewrite (IH Hs), andb_true_r.
  destruct (Ascii.eqb_spec c ","%char) as [-> |]; [discriminate Hc | reflexivity].
Qed.

Lemma cut_comma_none s : without ","%char s = true -> cut_comma s = (s, None).
Proof.
  induction s as [| c s IH]; cbn [without cut_comma]; [reflexivity |].
  intros H. apply andb_prop in H as [Hc Hs].
  destruct (Ascii.eqb c ","%char); [discriminate Hc |]. rewrite (IH Hs). reflexivity.
Qed.

Lemma cut_comma_first p s :
  without ","%char p = true -> cut_comma (p ++ "," ++ s) = (p, Some s).
Proof.
  induction p as [| c p IH]; cbn [without append cut_comma].
  - intros _. reflexivity.
  - intros H. apply andb_prop in H as [Hc Hp].
    destruct (Ascii.eqb c ","%char); [discriminate Hc |].
    change (p ++ String "," s) with (p ++ "," ++ s). rewrite (IH Hp). reflexivity.
Qed.

(** X16: for a data URL whose base64 part has no comma, what the snippet
    sends, [dataUrl.split(',')[1]], is that base64 part; for an image data
    URL with a subtype made of letters it is also what the create route of
    the first file would have obtained by removing the data-URI pattern, so
    the snippet and the route agree on the image data. *)
Theorem snippet_sends_the_base64_part :
  forall (mime data : string),
    without ","%char mime = true ->
    without ","%char data = true ->
    split_second (mime ++ "," ++ data) = Str data /\
    (forall subtype,
        letters subtype = true -> subtype <> "" ->
        mime = "data:image/" ++ subtype ++ ";base64" ->
        Str (strip_data_uri (mime ++ "," ++ data)) = split_second (mime ++ "," ++ data)).
Proof.
  intros mime data Hm Hd.
  assert (split_second (mime ++ "," ++ data) = Str data) as Hsplit.
  { unfold split_second. rewrite (cut_comma_first mime data Hm). cbn [snd].
    rewrite (cut_comma_none data Hd). reflexivity. }
  split; [exact Hsplit |].
  intros subtype Hl Hne ->. rewrite Hsplit. f_equal.
  rewrite <- (strip_data_uri_image subtype data Hl Hne) at 2.
  rewrite !string_append_assoc. reflexivity.
Qed.

Lemma snippet_sends_the_base64_part_witness :
  split_second ("data:image/jpeg;base64" ++ "," ++ "/9j/4AAQSkZJRg==") =
    Str "/9j/4AAQSkZJRg==" /\
  Str (strip_data_uri ("data:image/jpeg;base64" ++ "," ++ "/9j/4AAQSkZJRg==")) =
    split_second ("data:image/jpeg;base64" ++ "," ++ "/9j/4AAQSkZJRg==").
Proof.
  destruct (snippet_sends_the_base64_part "data:image/jpeg;base64" "/9j/4AAQSkZJRg==")
    as [Hsplit Hagree].
  - reflexivity.
  - reflexivity.
  - split; [exact Hsplit |].
    apply (Hagree "jpeg"); [reflexivity | discriminate | reflexivity].
Defined.

Lemma fetch_json_Ok E c w v w' :
  fetch_json E c w = (Ok v, w') -> replied E (calls w) c v /\ w' = sent w [c].
Proof.
  cbv beta delta [fetch_json bind fetch throw ret]. unfold replied.
  destruct (upstream E (calls w) c) as [e | st stt txt] eqn:Hup; [discriminate |].
  cbv beta iota zeta.
  destruct (JSON_parse E txt) as [v0 |] eqn:Hp; [| discriminate].
  intros H. inversion H. subst. split; [| reflexivity].
  exists st, stt, txt. split; [reflexivity | exact Hp].
Qed.

Lemma fetch_json_replied E c w v :
  replied E (calls w) c v -> fetch_json E c w = (Ok v, sent w [c]).
Proof.
  intros (st & stt & txt & Hup & Hp).
  cbv beta delta [fetch_json bind fetch throw ret].
  rewrite Hup. cbv beta iota zeta. rewrite Hp. reflexivity.
Qed.

(** X17: the snippet sends the shopper to the checkout only at the end of a
    run in which the canvas gave a data URL, the create route answered with a
    truthy [success] and a truthy [variantId], and the cart answered the
    request to add exactly that variant, in quantity one; these two requests
    are all it sent. *)
Theorem snippet_redirects_after_cart_add :
  forall (E : env) (canvas : outcome string) (price : value) (w : world)
         (href : string) (w' : world),
    addCustomJerseyToCart E canvas price w = (Ok (Navigate href), w') ->
    href = "/checkout" /\
    exists dataUrl json added,
      canvas = Ok dataUrl /\
      let create := create_request (split_second dataUrl)
                                   (default_to price (Str "499.00")) in
      let add := cart_request (field "variantId" json) in
      replied E (calls w) create json /\
      truthy (field "success" json) = true /\
      truthy (field "variantId" json) = true /\
      replied E (calls w ++ [create]) add added /\
      w' = sent w [create; add].
Proof.
  intros E canvas price w href w'.
  unfold addCustomJerseyToCart. cbv zeta. intros H.
  apply try_catch_reply in H as [H | (e & _ & He)]; [| discriminate He].
  backwards'; try discriminate.
  repeat match goal with
         | Hf : fetch_json _ _ _ = (Ok _, _) |- _ =>
             apply fetch_json_Ok in Hf as [? ?]; subst
         end.
  match goal with
  | Hn : Navigate _ = Navigate _ |- _ => injection Hn as <-
  end.
  split; [reflexivity |].
  match goal with
  | Hs : get ?j "success" = Ok _ |- _ =>
      assert (j <> Undefined) as Hu by (intros ->; discriminate Hs);
      assert (j <> Null) as Hn by (intros ->; discriminate Hs)
  end.
  repeat match goal with
         | Hg : get ?j ?k = Ok ?x |- _ =>
             rewrite (get_field j k Hu Hn) in Hg; injection Hg as Hg; subst x
         end.
  match goal with
  | Hc : replied _ _ (cart_request _) ?a, Hr : replied _ _ (create_request _ _) ?j |- _ =>
      eexists; exists j, a; cbv zeta;
      split; [reflexivity |]; split; [exact Hr |];
      split; [assumption |]; split; [assumption |];
      split; [exact Hc | rewrite sent_sent; reflexivity]
  end.
Qed.

Lemma snippet_redirects_after_cart_add_witness :
  let E := Samples.mk (Samples.origin Samples.txt_created) in
  let create := create_request (Str "/9j/4AAQSkZJRg==") (Str "499.00") in
  let add := cart_request (Num 11) in
  exists json added,
    replied E (calls w0) create json /\
    field "variantId" json = Num 11 /\
    replied E (calls w0 ++ [create]) add added /\
    addCustomJerseyToCart E (Ok "data:image/jpeg;base64,/9j/4AAQSkZJRg==") Undefined w0 =
      (Ok (Navigate "/checkout"), sent w0 [create; add]).
Proof.
  intros E create add.
  destruct (snippet_redirects_after_cart_add E
              (Ok "data:image/jpeg;base64,/9j/4AAQSkZJRg==") Undefined w0
              "/checkout" (sent w0 [create; add]))
    as (_ & dataUrl & json & added & Hc & Hr & _ & _ & Ha & _).
  - vm_compute. reflexivity.
  - injection Hc as <-. exists json, added.
    assert (json = Obj [("success", Bool true); ("productId", Num 7);
                        ("variantId", Num 11); ("sku", Str "CUST-1700000000000")]) as Hj.
    { destruct Hr as (st & stt & txt & Hup & Hp). vm_compute in Hup.
      injection Hup as _ _ <-. vm_compute in Hp. injection Hp as <-. reflexivity. }
    subst json. repeat split; try assumption; try (vm_compute; reflexivity).
Defined.



(** *** The GraphQL upload of the first file *)

Import Part001Upload.

Lemma truthy_get v k : truthy v = true -> get v k = Ok (field k v).
Proof. intros H. apply get_field; intros ->; discriminate H. Qed.

Lemma usable_url_offers f u :
  usable_url f = Ok (Some u) -> offers f u /\ truthy u = true.
Proof.
  unfold usable_url, offers.
  destruct (truthy f) eqn:Hf; cbn [negb]; [| discriminate].
  rewrite !(truthy_get f _ Hf).
  assert (forall r,
            (if is_string (field "__typename" f) "GenericFile"
             then if truthy (field "url" f) then Ok (Some (field "url" f)) else Ok None
             else Ok None) = Ok (Some r) ->
            is_string (field "__typename" f) "GenericFile" = true /\
            field "url" f = r /\ truthy r = true) as Hgeneric.
  { intros r. destruct (is_string (field "__typename" f) "GenericFile"); [| discriminate].
    destruct (truthy (field "url" f)) eqn:Hu; [| discriminate].
    intros H. injection H as <-. repeat split. exact Hu. }
  assert (forall o : outcome (option value),
            o = (if is_string (field "__typename" f) "GenericFile"
                 then if truthy (field "url" f) then Ok (Some (field "url" f)) else Ok None
                 else Ok None) ->
            o = Ok (Some u) ->
            (is_string (field "__typename" f) "MediaImage" = true /\
             field "url" (field "image" (field "preview" f)) = u \/
             is_string (field "__typename" f) "GenericFile" = true /\ field "url" f = u) /\
            truthy u = true) as Hfall.
  { intros o -> H. destruct (Hgeneric u H) as (Ht & Hu & Htr).
    split; [right; split; assumption | exact Htr]. }
  destruct (is_string (field "__typename" f) "MediaImage") eqn:Hmedia;
    [| apply Hfall; reflexivity].
  destruct (truthy (field "preview" f)) eqn:Hpreview; [| apply Hfall; reflexivity].
  rewrite (truthy_get _ "image" Hpreview).
  destruct (truthy (field "image" (field "preview" f))) eqn:Himage;
    [| apply Hfall; reflexivity].
  rewrite (truthy_get _ "url" Himage).
  destruct (truthy (field "url" (field "image" (field "preview" f)))) eqn:Hurl;
    [| apply Hfall; reflexivity].
  intros H. injection H as <-. split; [left; split; reflexivity | exact Hurl].
Qed.

Lemma first_usable_url_offers files u :
  first_usable_url files = Ok (Some u) ->
  truthy u = true /\ exists f, In f files /\ offers f u.
Proof.
  induction files as [| f files IH]; cbn [first_usable_url]; [discriminate |].
  destruct (usable_url f) as [[v |] | e] eqn:Hf; try discriminate.
  - intros H. injection H as ->. destruct (usable_url_offers f u Hf) as [Ho Ht].
    split; [exact Ht |]. exists f. split; [left; reflexivity | exact Ho].
  - intros H. destruct (IH H) as (Ht & g & Hin & Ho).
    split; [exact Ht |]. exists g. split; [right; exact Hin | exact Ho].
Qed.

Lemma graphql_Ok E query variables w v w' :
  shopifyRequestGraphQL E query variables w = (Ok v, w') ->
  replied E (calls w) (graphql_request E query variables) v /\
  w' = sent w [graphql_request E query variables].
Proof.
  cbv beta delta [shopifyRequestGraphQL bind fetch throw ret]. unfold replied.
  destruct (upstream E (calls w) _) as [e | st stt txt] eqn:Hup; [discriminate |].
  cbv beta iota zeta.
  destruct (JSON_parse E txt) as [v0 |] eqn:Hp; [| discriminate].
  intros H. inversion H. subst. split; [| reflexivity].
  exists st, stt, txt. split; [reflexivity | exact Hp].
Qed.

Lemma graphql_replied E query variables w v :
  replied E (calls w) (graphql_request E query variables) v ->
  shopifyRequestGraphQL E query variables w =
  (Ok v, sent w [graphql_request E query variables]).
Proof.
  intros (st & stt & txt & Hup & Hp).
  cbv beta delta [shopifyRequestGraphQL bind fetch throw ret].
  rewrite Hup. cbv beta iota zeta. rewrite Hp. reflexivity.
Qed.

(** X19: when the GraphQL upload of the first file returns a URL, it sent
    one request, the [fileCreate] mutation, and the URL is truthy and is
    offered by one of the files of the answer: the preview image URL of a
    [MediaImage] or the URL of a [GenericFile]. *)
Theorem graphql_upload_returns_an_offered_url :
  forall (E : env) (base64 filename : value) (w : world) (u : value) (w' : world),
    uploadFileToShopify E base64 filename w = (Ok u, w') ->
    let c := graphql_request E fileCreate_query (fileCreate_variables base64 filename) in
    w' = sent w [c] /\
    truthy u = true /\
    exists json files f,
      replied E (calls w) c json /\
      iterate (or_else (field "files" (field "fileCreate" (field "data" json))) (Arr []))
        = Ok files /\
      In f files /\
      offers f u.
Proof.
  intros E base64 filename w u w'. unfold uploadFileToShopify. intros H. cbv zeta.
  backwards'; try discriminate.
  all: match goal with
       | Hg : shopifyRequestGraphQL _ _ _ _ = (Ok _, _) |- _ =>
           apply graphql_Ok in Hg as [Hr ->]
       end.
  all: match goal with
       | Hm : match ?found with Some _ => _ | None => _ end _ = (Ok _, _) |- _ =>
           destruct found as [u0 |] eqn:Hfound; [| discriminate Hm];
           apply ret_Ok in Hm as [-> ->]
       end.
  all: match goal with
       | Hf : first_usable_url ?files = Ok (Some _) |- _ =>
           apply first_usable_url_offers in Hf as (Ht & f & Hin & Ho);
           split; [reflexivity |]; split; [exact Ht |];
           eexists; exists files, f;
           split; [exact Hr |]; split; [| split; [exact Hin | exact Ho]]
       end.
  all: repeat match goal with
              | Hg : get ?v ?k = Ok ?x, Ht : truthy ?v = true |- _ =>
                  rewrite (truthy_get v k Ht) in Hg; injection Hg as Hg; subst x
              end.
  all: match goal with
       | Hd : get ?j "data" = Ok _ |- _ =>
           rewrite (get_field j "data") in Hd
             by (intros Heq; rewrite Heq in Hd; discriminate Hd);
           injection Hd as Hd; subst
       end.
  all: try assumption.
  all: congruence.
Qed.

Lemma graphql_upload_returns_an_offered_url_witness :
  let E := Samples.mk (Fixtures.always 200 "OK" Samples.txt_file_created) in
  let c := graphql_request E fileCreate_query
             (fileCreate_variables (Str "AAAA") (Str "custom.jpg")) in
  uploadFileToShopify E (Str "AAAA") (Str "custom.jpg") w0 =
    (Ok (Str "https://cdn.example/a.jpg"), sent w0 [c]) /\
  exists json files f,
    replied E (calls w0) c json /\
    iterate (or_else (field "files" (field "fileCreate" (field "data" json))) (Arr []))
      = Ok files /\
    In f files /\
    offers f (Str "https://cdn.example/a.jpg").
Proof.
  intros E c.
  assert (uploadFileToShopify E (Str "AAAA") (Str "custom.jpg") w0 =
          (Ok (Str "https://cdn.example/a.jpg"), sent w0 [c])) as Hrun
    by (vm_compute; reflexivity).
  split; [exact Hrun |].
  exact (proj2 (proj2 (graphql_upload_returns_an_offered_url
                         E (Str "AAAA") (Str "custom.jpg") w0 _ _ Hrun))).
Defined.



Lemma uploadFile_world_graphql E base64 filename w :
  snd (uploadFileToShopify E base64 filename w) =
  sent w [graphql_request E fileCreate_query (fileCreate_variables base64 filename)].
Proof.
  unfold uploadFileToShopify.
  assert (forall (A : Type) (k : value -> M A),
             (forall v w1, snd (k v w1) = w1) ->
             snd (bind (shopifyRequestGraphQL E fileCreate_query
                          (fileCreate_variables base64 filename)) k w) =
             sent w [graphql_request E fileCreate_query
                       (fileCreate_variables base64 filename)]) as Hhead.
  { intros A k Hk. unfold bind.
    cbv beta delta [shopifyRequestGraphQL bind fetch throw ret].
    destruct (upstream E (calls w) _) as [e | st stt txt]; [reflexivity |].
    cbv beta iota zeta. destruct (JSON_parse E txt); [apply Hk | reflexivity]. }
  apply Hhead. intros json w1.
  unfold bind at 1. unfold lift at 1.
  destruct (get json "errors") as [errors | e]; [| reflexivity].
  unfold bind at 1. unfold lift at 1.
  destruct (non_empty errors) as [[|] | e]; try reflexivity.
  unfold bind at 1. unfold lift at 1.
  destruct (get json "data") as [data | e]; [| reflexivity].
  unfold bind at 1.
  assert (exists o, and_then data (lift (get data "fileCreate")) w1 = (o, w1)) as [o ->].
  { unfold and_then, lift, ret. destruct (truthy data); eexists; reflexivity. }
  destruct o as [fc | e]; [| reflexivity].
  destruct (truthy fc); cbn [negb]; [| reflexivity].
  unfold bind at 1. unfold lift at 1.
  destruct (get fc "userErrors") as [userErrors | e]; [| reflexivity].
  unfold bind at 1. unfold lift at 1.
  destruct (non_empty userErrors) as [[|] | e]; try reflexivity.
  unfold bind at 1. unfold lift at 1.
  destruct (get fc "files") as [files0 | e]; [| reflexivity].
  unfold bind at 1. unfold lift at 1.
  destruct (iterate (or_else files0 (Arr []))) as [files | e]; [| reflexivity].
  unfold bind at 1. unfold lift at 1.
  destruct (first_usable_url files) as [[u |] | e]; reflexivity.
Qed.

(** X21: the data URL the GraphQL upload builds around a base64 string is one
    the create route's pattern undoes: the request carries
    [data:image/jpeg;base64,<base64>] as [originalSource], and removing the
    data-URI pattern from it gives [<base64>] back. *)
Theorem graphql_upload_data_url_round_trip :
  forall (E : env) (base64 : string) (filename : value) (w : world),
    exists c src,
      snd (uploadFileToShopify E (Str base64) filename w) = sent w [c] /\
      source_sent c = Str src /\
      src = "data:image/jpeg;base64," ++ base64 /\
      strip_data_uri src = base64.
Proof.
  intros E base64 filename w. do 2 eexists.
  split; [apply uploadFile_world_graphql |].
  split; [reflexivity |]. split; [reflexivity |].
  exact (strip_data_uri_image "jpeg" base64 eq_refl ltac:(discriminate)).
Qed.

(** *** The first two files, where the third one slips *)

(** X23: in the first two files, a non-success status from upstream makes
    [shopifyRequest] throw an error whose message carries the status and the
    raw body, after the one request it sent; nothing parsed is returned. *)
Theorem shopifyRequest_rejects_error_status :
  forall (E : env) (path method : string) (body : value) (w : world)
         (st : Z) (stt txt : string),
    upstream E (calls w) (request_opts E path method body) = Response st stt txt ->
    res_ok st = false ->
    Part001.shopifyRequest E path method body w =
      (Throw (Error ("Shopify API error (" ++ string_of_Z st ++ "): " ++ txt)),
       sent w [request_opts E path method body]) /\
    Part002a.shopifyRequest E path method body w =
      (Throw (Error ("Shopify API error (" ++ string_of_Z st ++ " " ++ stt ++ "): " ++ txt)),
       sent w [request_opts E path method body]).
Proof.
  intros E path method body w st stt txt Hup Hok. split.
  - exact (shopifyRequest_Part001_fails E path method body w st stt txt Hup Hok).
  - exact (shopifyRequest_Part002a_fails E path method body w st stt txt Hup Hok).
Qed.

Lemma shopifyRequest_rejects_error_status_witness :
  let E := Fixtures.mk [] (Fixtures.always 404 "Not Found" Fixtures.txt_not_found)
                       (fun _ => Fixtures.millis) in
  Part001.shopifyRequest E "products/7.json" "DELETE" Null w0 =
    (Throw (Error ("Shopify API error (404): " ++ Fixtures.txt_not_found)),
     sent w0 [request_opts E "products/7.json" "DELETE" Null]) /\
  Part002a.shopifyRequest E "products/7.json" "DELETE" Null w0 =
    (Throw (Error ("Shopify API error (404 Not Found): " ++ Fixtures.txt_not_found)),
     sent w0 [request_opts E "products/7.json" "DELETE" Null]).
Proof.
  intros E.
  apply (shopifyRequest_rejects_error_status E "products/7.json" "DELETE" Null w0
           404 "Not Found" Fixtures.txt_not_found).
  - reflexivity.
  - reflexivity.
Defined.

(** X24: with a webhook secret configured, no request is processed, whatever
    its signature header: [req.body] holds what [express.json] parsed, never
    a string or the request bytes, and [update] throws on it.  The first two
    files answer 401 from the [catch] around the check; the third, which has
    no [try] there, sends no reply.  Nothing is sent upstream. *)
Theorem webhook_with_secret_processes_nothing :
  forall (E : env) (req : request value) (w : world),
    SHOPIFY_WEBHOOK_SECRET E <> "" ->
    (forall s, req_body req <> Str s) ->
    Part001.post_orders_create E req w = (Ok (Send 401 "HMAC error"), w) /\
    Part002a.post_orders_create E req w = (Ok (Send 401 "HMAC check error"), w) /\
    exists m, Part002b.post_orders_create E req w = (Throw (TypeError m), w).
Proof.
  intros E req w Hsecret Hbody. repeat split.
  - apply guarded_Part001; assumption.
  - apply guarded_Part002a; assumption.
  - apply guarded_Part002b; assumption.
Qed.

Lemma webhook_with_secret_processes_nothing_witness :
  let E := Fixtures.mk [("SHOPIFY_WEBHOOK_SECRET", "s3cret")]
                       (Fixtures.store Fixtures.txt_empty_object)
                       (fun _ => Fixtures.millis) in
  let req := MkReq (fun _ => Some Fixtures.digest)
                   (Obj [("line_items", Arr [Fixtures.line_item; Fixtures.line_item])]) in
  Part001.post_orders_create E req w0 = (Ok (Send 401 "HMAC error"), w0) /\
  Part002a.post_orders_create E req w0 = (Ok (Send 401 "HMAC check error"), w0) /\
  exists m, Part002b.post_orders_create E req w0 = (Throw (TypeError m), w0).
Proof.
  intros E req.
  apply (webhook_with_secret_processes_nothing E req w0).
  - vm_compute. discriminate.
  - intros s. discriminate.
Defined.
